(** * Vidchemy backend: product store, product service, product routes

    A shallow embedding of

      - [backend/src/shared/models/product.model.js]  (the Mongoose schema
        of the [Product] collection and the BullMQ [videoQueue]),
      - [backend/src/shared/utils/custom-error.util.js] ([CustomError]),
      - [backend/src/shared/utils/error-handler.util.js],
      - [backend/src/api/services/product.service.js] ([ProductService]),
      - [backend/src/api/controllers/product.controller.js] and the router
        that instantiates it,

    followed by the properties of the job record that the pipeline
    specification states about them.

    The collection is a list of documents in natural (insertion) order.
    Ids reach the service as text and are cast to ObjectIds by the model,
    which throws a [CastError] for text that is no ObjectId. Service
    methods are computations in a state-and-exception monad over the
    database: a method may write and then throw, exactly as the
    JavaScript does. *)

From Stdlib Require Import ZArith NArith Lia DecimalString Ascii.
From stdpp Require Import base option list strings.

Open Scope string_scope.

(** ** JavaScript values that the services test for truthiness *)

(** A request value that is either [undefined] or a string: [!v] holds for
    [undefined] and for the empty string. *)
Definition falsy (v : option string) : bool :=
  match v with
  | None => true
  | Some s => if decide (s = "") then true else false
  end.

(** [a || b] on strings. *)
Definition str_or (a : option string) (b : string) : string :=
  match a with
  | Some s => if decide (s = "") then b else s
  | None => b
  end.

(** ** ObjectIds *)

(** An ObjectId is a 12-byte value; the model keeps it as a number. *)
Definition ObjectId := N.

(** The value of a hexadecimal digit, in either case. *)
Definition hex_digit (c : ascii) : option N :=
  let n := N_of_ascii c in
  if ((48 <=? n) && (n <=? 57))%N then Some (n - 48)%N
  else if ((97 <=? n) && (n <=? 102))%N then Some (n - 87)%N
  else if ((65 <=? n) && (n <=? 70))%N then Some (n - 55)%N
  else None.

Fixpoint parse_hex (s : string) (acc : N) : option N :=
  match s with
  | EmptyString => Some acc
  | String c rest =>
      match hex_digit c with
      | Some d => parse_hex rest (16 * acc + d)%N
      | None => None
      end
  end.

(** The cast of a text to an ObjectId: 24 hexadecimal digits, upper or
    lower case; any other text does not cast. *)
Definition castObjectId (s : string) : option ObjectId :=
  if Nat.eqb (String.length s) 24 then parse_hex s 0%N else None.

(** ** Errors *)

(** What validation holds against one path of a document. *)
Inductive PathError : Type :=
  | Required (message : string)
  | CastFailure (kind : string) (value : string)
  | NotInEnum (value : string).

(** The [errors] object of a [ValidationError], keyed by path; only the
    paths the schema validates can have an entry. *)
Record PathErrors : Type := mkPathErrors {
  on_user : option PathError;
  on_s3FileKey : option PathError;
  on_cdnUrl : option PathError;
  on_processingStatus : option PathError;
  on_jobId : option PathError
}.

Inductive JsError : Type :=
  | CustomError (customMessage : string) (statusCode : nat)
  | ValidationError (errors : PathErrors)
  | CastError (kind : string) (path : string) (value : string)
  | ReferenceError (message : string)
  | TypeError (message : string).

(** [new CustomError(message = "Internal Server Error", statusCode = 500)]:
    an omitted argument takes its default. *)
Definition new_CustomError (message : option string) (statusCode : option nat)
  : JsError :=
  CustomError (default "Internal Server Error" message) (default 500 statusCode).

(** [err.statusCode]: only [CustomError] carries one. *)
Definition err_statusCode (e : JsError) : option nat :=
  match e with
  | CustomError _ c => Some c
  | _ => None
  end.

(** [err.customMessage]. *)
Definition err_customMessage (e : JsError) : option string :=
  match e with
  | CustomError m _ => Some m
  | _ => None
  end.

Inductive Result (A : Type) : Type :=
  | Ok (a : A)
  | Throw (e : JsError).
Arguments Ok {A} a.
Arguments Throw {A} e.

(** ** The Product collection *)

Record Attributes : Type := mkAttributes {
  brand : option string;
  color : option string;
  material : option string;
  targetAudience : option string;
  estimatedPriceINR : option Z
}.

Record Media : Type := mkMedia {
  mainImageUrl : option string;
  alternateImageUrls : list string
}.

(** A stored document of [productSchema], with the two dates that
    [timestamps: true] adds (in milliseconds). [processingStatus] is a
    string: the enum of the schema is a validator run by [save], not a
    type. *)
Record Product : Type := mkProduct {
  _id : ObjectId;
  user : ObjectId;
  s3FileKey : string;
  cdnUrl : string;
  title : option string;
  description : option string;
  bulletPoints : list string;
  searchTerms : list string;
  suggestedCategory : option string;
  attributes : Attributes;
  media : Media;
  processingStatus : string;
  jobId : string;
  errorMessage : option string;
  createdAt : nat;
  updatedAt : nat
}.

(** The object handed to [new Product(...)]: every path may be absent;
    [user] comes as text. *)
Record ProductData : Type := mkProductData {
  in_user : option string;
  in_s3FileKey : option string;
  in_cdnUrl : option string;
  in_title : option string;
  in_description : option string;
  in_bulletPoints : list string;
  in_searchTerms : list string;
  in_suggestedCategory : option string;
  in_attributes : Attributes;
  in_media : Media;
  in_processingStatus : option string;
  in_jobId : option string;
  in_errorMessage : option string
}.

(** The object handed to [$set] by [updateProductById]: the paths it
    names. A path that is absent is left alone; [user] comes as text, the
    other values as the schema types them (a JSON [null] is not among
    them). *)
Record UpdateData : Type := mkUpdateData {
  up_user : option string;
  up_s3FileKey : option string;
  up_cdnUrl : option string;
  up_title : option string;
  up_description : option string;
  up_bulletPoints : option (list string);
  up_searchTerms : option (list string);
  up_suggestedCategory : option string;
  up_attributes : option Attributes;
  up_media : option Media;
  up_processingStatus : option string;
  up_jobId : option string;
  up_errorMessage : option string
}.

(** The database behind the model: the documents in natural order, the
    next ObjectId the driver generates, whether the connection's write
    concern acknowledges writes, and what the clock reads. *)
Record Db : Type := mkDb {
  documents : list Product;
  next_oid : ObjectId;
  write_ack : bool;
  now : nat
}.

Definition set_documents (db : Db) (ds : list Product) : Db :=
  mkDb ds (next_oid db) (write_ack db) (now db).

(** Time passes: the clock reads [t]. *)
Definition tick (t : nat) (db : Db) : Db :=
  mkDb (documents db) (next_oid db) (write_ack db) t.

(** ** State and exception monad of the service layer *)

Definition M (A : Type) : Type := Db -> Result A * Db.

Definition ret {A} (a : A) : M A := fun db => (Ok a, db).
Definition throw {A} (e : JsError) : M A := fun db => (Throw e, db).
Definition bind {A B} (m : M A) (k : A -> M B) : M B :=
  fun db =>
    match m db with
    | (Ok a, db') => k a db'
    | (Throw e, db') => (Throw e, db')
    end.

Notation "'do' x <- m ;; k" := (bind m (fun x => k))
  (at level 10, x name, m at level 99, k at level 200, only parsing).
Notation "'exec' m ;; k" := (bind m (fun _ => k))
  (at level 10, m at level 99, k at level 200, only parsing).

(** [if (c) throw e;] *)
Definition throw_if (c : bool) (e : JsError) : M unit :=
  if c then throw e else ret tt.

(** ** Mongoose model operations used by the service *)

Module Model.

Definition enum_processingStatus : list string :=
  ["pending"; "queued"; "processing"; "completed"; "failed"].

Definition default_processingStatus : string := "pending".

(** [required] on a string path: present and not empty. *)
Definition required_ok (v : option string) : bool := negb (falsy v).

Definition enum_ok (s : string) : bool :=
  if decide (s ∈ enum_processingStatus) then true else false.

(** The cast of the [user] a document is built from. *)
Definition cast_user (d : ProductData) : option ObjectId :=
  match in_user d with
  | Some t => castObjectId t
  | None => None
  end.

(** [user] is an ObjectId path: a text that does not cast fails with a
    cast error, a missing one with the [required] message. *)
Definition validate_user (v : option string) : option PathError :=
  match v with
  | None => Some (Required "User Id is Required")
  | Some t =>
      match castObjectId t with
      | Some _ => None
      | None => Some (CastFailure "ObjectId" t)
      end
  end.

Definition validate_required (v : option string) (message : string)
  : option PathError :=
  if required_ok v then None else Some (Required message).

(** The validation [save] runs: what it holds against each path, with
    the messages the schema declares. *)
Definition validate (d : ProductData) : PathErrors :=
  {| on_user := validate_user (in_user d);
     on_s3FileKey :=
       validate_required (in_s3FileKey d) "S3 File Key is Required";
     on_cdnUrl := validate_required (in_cdnUrl d) "CDN Url is Required";
     on_processingStatus :=
       match in_processingStatus d with
       | Some s => if enum_ok s then None else Some (NotInEnum s)
       | None => None
       end;
     on_jobId := validate_required (in_jobId d) "Job Id is Required" |}.

(** No path has an error. *)
Definition passes (e : PathErrors) : bool :=
  match on_user e, on_s3FileKey e, on_cdnUrl e,
        on_processingStatus e, on_jobId e with
  | None, None, None, None, None => true
  | _, _, _, _, _ => false
  end.

(** [new Product(productData)] at time [t]: a fresh [_id], the schema's
    defaults, both dates set when the document is saved. *)
Definition new_Product (oid : ObjectId) (t : nat) (d : ProductData)
  : Product :=
  {| _id := oid;
     user := default 0%N (cast_user d);
     s3FileKey := default "" (in_s3FileKey d);
     cdnUrl := default "" (in_cdnUrl d);
     title := in_title d;
     description := in_description d;
     bulletPoints := in_bulletPoints d;
     searchTerms := in_searchTerms d;
     suggestedCategory := in_suggestedCategory d;
     attributes := in_attributes d;
     media := in_media d;
     processingStatus :=
       default default_processingStatus (in_processingStatus d);
     jobId := default "" (in_jobId d);
     errorMessage := in_errorMessage d;
     createdAt := t;
     updatedAt := t |}.

(** [const product = new Product(d); await product.save()]: validation,
    then an insert at the end of the collection. *)
Definition create_and_save (d : ProductData) : M Product :=
  fun db =>
    let p := new_Product (next_oid db) (now db) d in
    if passes (validate d)
    then (Ok p, mkDb (documents db ++ [p]) (N.succ (next_oid db))
                     (write_ack db) (now db))
    else (Throw (ValidationError (validate d)),
          mkDb (documents db) (N.succ (next_oid db)) (write_ack db) (now db)).

(** The cast of a filter value on an ObjectId path. *)
Definition cast_filter (path value : string) : M ObjectId :=
  match castObjectId value with
  | Some oid => ret oid
  | None => throw (CastError "ObjectId" path value)
  end.

(** The first document with that [_id], or null. *)
Fixpoint find_first (id : ObjectId) (ds : list Product) : option Product :=
  match ds with
  | [] => None
  | p :: rest => if decide (_id p = id) then Some p else find_first id rest
  end.

(** [Product.findById(id)]. *)
Definition findById (id : string) : M (option Product) :=
  do oid <- cast_filter "_id" id ;;
  fun db => (Ok (find_first oid (documents db)), db).

(** The documents that match [{user: userId}]. *)
Definition by_user (userId : ObjectId) (ds : list Product) : list Product :=
  filter (fun p => user p = userId) ds.

(** [Product.find({user: userId}).skip(offset).limit(n)]. *)
Definition find_skip_limit (userId : string) (offset n : nat)
  : M (list Product) :=
  do uid <- cast_filter "user" userId ;;
  fun db => (Ok (take n (drop offset (by_user uid (documents db)))), db).

(** [Product.countDocuments({user: userId})]. *)
Definition countDocuments (userId : string) : M nat :=
  do uid <- cast_filter "user" userId ;;
  fun db => (Ok (length (by_user uid (documents db))), db).

(** The count a write reports: none when the write is not acknowledged. *)
Definition reported (ack : bool) (n : nat) : option nat :=
  if ack then Some n else None.

Record UpdateResult : Type := mkUpdateResult {
  acknowledged : bool;
  matchedCount : option nat
}.

(** Apply [f] to the first document with the given [_id]; the count of
    documents matched (0 or 1) comes back with the new list. *)
Fixpoint update_first (id : ObjectId) (f : Product -> Product)
         (ds : list Product) : nat * list Product :=
  match ds with
  | [] => (0, [])
  | p :: rest =>
      if decide (_id p = id) then (1, f p :: rest)
      else let '(n, rest') := update_first id f rest in (n, p :: rest')
  end.

(** The [updatedAt] stamp every update adds to its [$set]. *)
Definition touch (t : nat) (p : Product) : Product :=
  {| _id := _id p;
     user := user p;
     s3FileKey := s3FileKey p;
     cdnUrl := cdnUrl p;
     title := title p;
     description := description p;
     bulletPoints := bulletPoints p;
     searchTerms := searchTerms p;
     suggestedCategory := suggestedCategory p;
     attributes := attributes p;
     media := media p;
     processingStatus := processingStatus p;
     jobId := jobId p;
     errorMessage := errorMessage p;
     createdAt := createdAt p;
     updatedAt := t |}.

Definition set_processingStatus (s : string) (p : Product) : Product :=
  {| _id := _id p;
     user := user p;
     s3FileKey := s3FileKey p;
     cdnUrl := cdnUrl p;
     title := title p;
     description := description p;
     bulletPoints := bulletPoints p;
     searchTerms := searchTerms p;
     suggestedCategory := suggestedCategory p;
     attributes := attributes p;
     media := media p;
     processingStatus := s;
     jobId := jobId p;
     errorMessage := errorMessage p;
     createdAt := createdAt p;
     updatedAt := updatedAt p |}.

(** What the status update does to the document it matches at time
    [t]. *)
Definition status_write (t : nat) (s : string) (p : Product) : Product :=
  touch t (set_processingStatus s p).

(** [Product.updateOne({_id: id}, {$set: {processingStatus: s}})].
    Update validators are off by default, so [s] is stored as it is; the
    matched document also gets its [updatedAt] stamp. The result carries
    [matchedCount] only when the write is acknowledged. *)
Definition updateOne_set_status (id : string) (s : string)
  : M UpdateResult :=
  do oid <- cast_filter "_id" id ;;
  fun db =>
    let '(n, ds) :=
      update_first oid (status_write (now db) s) (documents db) in
    (Ok (mkUpdateResult (write_ack db) (reported (write_ack db) n)),
     set_documents db ds).

(** The newer of two values of an optional path. *)
Definition newer {A} (new old : option A) : option A :=
  match new with
  | Some _ => new
  | None => old
  end.

(** The cast of the [user] an update names, if it names one. *)
Definition cast_up_user (u : UpdateData) : Result (option ObjectId) :=
  match up_user u with
  | None => Ok None
  | Some t =>
      match castObjectId t with
      | Some oid => Ok (Some oid)
      | None => Throw (CastError "ObjectId" "user" t)
      end
  end.

(** [$set: u] on one document, [usr] being the cast of the user it
    names: every path [u] names takes the value given, the others and
    [_id] stay. *)
Definition apply_set (u : UpdateData) (usr : option ObjectId) (p : Product)
  : Product :=
  {| _id := _id p;
     user := default (user p) usr;
     s3FileKey := default (s3FileKey p) (up_s3FileKey u);
     cdnUrl := default (cdnUrl p) (up_cdnUrl u);
     title := newer (up_title u) (title p);
     description := newer (up_description u) (description p);
     bulletPoints := default (bulletPoints p) (up_bulletPoints u);
     searchTerms := default (searchTerms p) (up_searchTerms u);
     suggestedCategory := newer (up_suggestedCategory u) (suggestedCategory p);
     attributes := default (attributes p) (up_attributes u);
     media := default (media p) (up_media u);
     processingStatus := default (processingStatus p) (up_processingStatus u);
     jobId := default (jobId p) (up_jobId u);
     errorMessage := newer (up_errorMessage u) (errorMessage p);
     createdAt := createdAt p;
     updatedAt := updatedAt p |}.

(** [Product.updateOne({_id: id}, {$set: u})]: filter and update are
    cast, no validator runs, the matched document gets its [updatedAt]
    stamp. *)
Definition updateOne_set (id : string) (u : UpdateData) : M UpdateResult :=
  do oid <- cast_filter "_id" id ;;
  do usr <- (fun db => (cast_up_user u, db)) ;;
  fun db =>
    let '(n, ds) :=
      update_first oid (fun p => touch (now db) (apply_set u usr p))
                   (documents db) in
    (Ok (mkUpdateResult (write_ack db) (reported (write_ack db) n)),
     set_documents db ds).

Record DeleteResult : Type := mkDeleteResult {
  deletedCount : option nat
}.

Fixpoint delete_first (id : ObjectId) (ds : list Product)
  : nat * list Product :=
  match ds with
  | [] => (0, [])
  | p :: rest =>
      if decide (_id p = id) then (1, rest)
      else let '(n, rest') := delete_first id rest in (n, p :: rest')
  end.

(** [Product.deleteOne({_id: id})]; the result carries [deletedCount]
    only when the write is acknowledged. *)
Definition deleteOne (id : string) : M DeleteResult :=
  do oid <- cast_filter "_id" id ;;
  fun db =>
    let '(n, ds) := delete_first oid (documents db) in
    (Ok (mkDeleteResult (reported (write_ack db) n)), set_documents db ds).

End Model.

(** [count === 0] and [count == 0] on the count of a write's result:
    false when the result carries none. *)
Definition is_zero (count : option nat) : bool :=
  match count with
  | Some 0 => true
  | _ => false
  end.

(** ** ProductService *)

Module ProductService.

Definition getProductById (id : string) : M Product :=
  do product <- Model.findById id ;;
  match product with
  | None => throw (new_CustomError (Some "Product not found") (Some 404))
  | Some p => ret p
  end.

Record ProductsPage : Type := mkProductsPage {
  products : list Product;
  isMore : bool;
  totalProductCnt : nat
}.

(** [getProducts(userId, offset = 0)]; [offset] is a skip count. *)
Definition getProducts (userId : option string) (offset : option nat)
  : M ProductsPage :=
  let offset := default 0 offset in
  exec throw_if (falsy userId)
                (new_CustomError (Some "User id is required") None) ;;
  let uid := default "" userId in
  do products <- Model.find_skip_limit uid offset 15 ;;
  do productCnt <- Model.countDocuments uid ;;
  ret {| products := products;
         isMore := (Z.of_nat productCnt - Z.of_nat offset >? 15)%Z;
         totalProductCnt := productCnt |}.

Definition updateProductById (id : string)
           (updatedData : option UpdateData) : M unit :=
  match updatedData with
  | None => throw (new_CustomError (Some "Id and Data are required") (Some 400))
  | Some u =>
      do update <- Model.updateOne_set id u ;;
      exec throw_if (is_zero (Model.matchedCount update))
                    (new_CustomError (Some "Product not found") (Some 404)) ;;
      throw_if (negb (Model.acknowledged update))
               (new_CustomError (Some "Update failed, try again later")
                                (Some 500))
  end.

Definition createProduct (productData : option ProductData) : M Product :=
  match productData with
  | None => throw (new_CustomError (Some "Product data is required") (Some 400))
  | Some d => Model.create_and_save d
  end.

Definition updateProcessingStatus (id : string)
           (currentStatus : option string) : M unit :=
  exec throw_if (falsy currentStatus)
                (new_CustomError (Some "Id and status are required") (Some 400)) ;;
  do update <- Model.updateOne_set_status id (default "" currentStatus) ;;
  exec throw_if (is_zero (Model.matchedCount update))
                (new_CustomError (Some "Product not found") (Some 404)) ;;
  throw_if (negb (Model.acknowledged update))
           (new_CustomError (Some "Update failed, try again later") (Some 500)).

Definition deleteProduct (id : string) : M unit :=
  do delProduct <- Model.deleteOne id ;;
  throw_if (is_zero (Model.deletedCount delProduct))
           (new_CustomError (Some "Product not found") (Some 404)).

End ProductService.

(** ** The Express layer: responses, error handler, controller, router *)

Inductive Payload : Type :=
  | NoData
  | DataProduct (p : Product)
  | DataPage (pg : ProductService.ProductsPage).

(** [err.stack], kept symbolic: the text of the trace of [err], which
    starts with the error's name and message. *)
Inductive Stack : Type :=
  | StackOf (err : JsError).

(** What [res.status(code).json({status, data, message, stack})] sends;
    a key whose value is [undefined] is not in the body. *)
Record Response : Type := mkResponse {
  http_status : nat;
  body_status : string;
  body_data : Payload;
  body_message : string;
  body_stack : option Stack
}.

(** A handler either sends a response or hands an error to [next]. *)
Inductive Outcome : Type :=
  | Sent (r : Response)
  | Next (err : JsError).

(** The template literal [`${n}`] of a number. *)
Definition num_to_string (n : nat) : string :=
  NilEmpty.string_of_uint (Nat.to_uint n).

(** [a || b] on numbers: [undefined] and [0] are falsy. *)
Definition num_or (a : option nat) (b : nat) : nat :=
  match a with
  | Some (S n) => S n
  | _ => b
  end.

Definition startsWith (s p : string) : bool := String.prefix p s.

(** [process.env.NODE_ENV === 'development'] *)
Definition development (NODE_ENV : option string) : bool :=
  if decide (NODE_ENV = Some "development") then true else false.

Definition globalErrorHandler (NODE_ENV : option string) (err : JsError)
  : Response :=
  let statusCode := num_or (err_statusCode err) 500 in
  let status := if startsWith (num_to_string statusCode) "4"
                then "fail" else "error" in
  {| http_status := statusCode;
     body_status := status;
     body_data := NoData;
     body_message :=
       str_or (err_customMessage err) "Something went wrong, try again later";
     body_stack := if development NODE_ENV then Some (StackOf err) else None |}.

(** The response the client receives: the handler's own, or the error
    handler's when the handler called [next(err)]. *)
Definition client_response (NODE_ENV : option string) (o : Outcome)
  : Response :=
  match o with
  | Sent r => r
  | Next err => globalErrorHandler NODE_ENV err
  end.

(** [try { ...; res.status(..).json(..) } catch (err) { next(err) }] *)
Definition try_catch (body : M Response) : Db -> Outcome * Db :=
  fun db =>
    match body db with
    | (Ok r, db') => (Sent r, db')
    | (Throw e, db') => (Next e, db')
    end.

(** The methods of a [ProductService] instance, as the controller sees
    them through [this.productService]. *)
Record ProductServiceObj : Type := mkProductServiceObj {
  m_getProductById : string -> M Product;
  m_getProducts : option string -> option nat -> M ProductService.ProductsPage;
  m_updateProductById : string -> option UpdateData -> M unit;
  m_createProduct : option ProductData -> M Product;
  m_updateProcessingStatus : string -> option string -> M unit;
  m_deleteProduct : string -> M unit
}.

(** [new ProductService()] *)
Definition new_ProductService : ProductServiceObj :=
  {| m_getProductById := ProductService.getProductById;
     m_getProducts := ProductService.getProducts;
     m_updateProductById := ProductService.updateProductById;
     m_createProduct := ProductService.createProduct;
     m_updateProcessingStatus := ProductService.updateProcessingStatus;
     m_deleteProduct := ProductService.deleteProduct |}.

(** What an identifier can be bound to in the controller's file. *)
Inductive Binding : Type :=
  | BService (s : ProductServiceObj)
  | BOther.

Definition Scope := list (string * Binding).

(** Resolution of a bare identifier along the scope chain, innermost
    scope first; an identifier bound nowhere is a [ReferenceError]. *)
Fixpoint resolve (chain : list Scope) (x : string) : Result Binding :=
  match chain with
  | [] => Throw (ReferenceError (x ++ " is not defined"))
  | sc :: outer =>
      match list_find (fun b => fst b = x) sc with
      | Some (_, (_, b)) => Ok b
      | None => resolve outer x
      end
  end.

Definition lift {A} (r : Result A) : M A := fun db => (r, db).

(** What the handlers read from a request: [req.params.id], the two
    entries of [req.query], and [req.body] as the route at hand reads
    it. *)
Record Request : Type := mkRequest {
  params_id : string;
  query_userId : option string;
  query_offset : option nat;
  body : option ProductData;
  body_update : option UpdateData;
  body_currentStatus : option string
}.

Module ProductController.

(** The instance: [this.productService = productService] is the only
    field the constructor sets. *)
Record t : Type := mk {
  productService : ProductServiceObj
}.

Definition constructor (productService : ProductServiceObj) : t :=
  mk productService.

(** Top-level bindings of the controller's file: the class itself. The
    file imports nothing. *)
Definition module_scope : Scope := [("ProductController", BOther)].

(** Bindings of a handler body: its parameters and its [const]s. *)
Definition handler_scope : Scope :=
  [("req", BOther); ("res", BOther); ("next", BOther); ("id", BOther)].

Definition getProduct (this : t) (req : Request) : Db -> Outcome * Db :=
  try_catch (
    let id := params_id req in
    do product <- m_getProductById (productService this) id ;;
    ret (mkResponse 200 "success" (DataProduct product)
                    "Product fetched successfully" None)).

(** The body of the 200 spells its last key [messge]: it carries no
    [message]. *)
Definition getProducts (this : t) (req : Request) : Db -> Outcome * Db :=
  try_catch (
    let userId := query_userId req in
    let offset := query_offset req in
    do products <- m_getProducts (productService this) userId offset ;;
    ret (mkResponse 200 "success" (DataPage products) "" None)).

Definition updateProduct (this : t) (req : Request) : Db -> Outcome * Db :=
  try_catch (
    let id := params_id req in
    let updatedData := body_update req in
    exec m_updateProductById (productService this) id updatedData ;;
    ret (mkResponse 200 "success" NoData "Product updated successfully"
                    None)).

Definition createProduct (this : t) (req : Request) : Db -> Outcome * Db :=
  try_catch (
    let productData := body req in
    do product <- m_createProduct (productService this) productData ;;
    ret (mkResponse 201 "success" (DataProduct product)
                    "Product created successfully" None)).

Definition updateStatus (this : t) (req : Request) : Db -> Outcome * Db :=
  try_catch (
    let id := params_id req in
    let currentStatus := body_currentStatus req in
    exec m_updateProcessingStatus (productService this) id currentStatus ;;
    ret (mkResponse 200 "success" NoData "Processing status updated" None)).

(** The body names [productService], not [this.productService]: the
    identifier is resolved along the scope chain of the handler. *)
Definition deleteProduct (this : t) (req : Request) : Db -> Outcome * Db :=
  try_catch (
    let id := params_id req in
    do productService <- lift (resolve [handler_scope; module_scope]
                                       "productService") ;;
    exec match productService with
         | BService s => m_deleteProduct s id
         | BOther =>
             throw (TypeError "productService.deleteProduct is not a function")
         end ;;
    ret (mkResponse 200 "success" NoData "Product deleted successfully"
                    None)).

End ProductController.

(** The router's controller:
    [new ProductController(new ProductService())]. *)
Definition productController : ProductController.t :=
  ProductController.constructor new_ProductService.

(** ** The product router *)

Module Router.

(** A request to one of the six routes, with what its handler reads from
    it. *)
Inductive ApiCall : Type :=
  | GET_id (id : string)
  | GET_root (userId : option string) (offset : option nat)
  | PUT_id (id : string) (updatedData : option UpdateData)
  | POST_root (productData : option ProductData)
  | PATCH_id_status (id : string) (currentStatus : option string)
  | DELETE_id (id : string).

(** The route table: each route with the handler registered for it. *)
Definition handle (c : ApiCall) : Db -> Outcome * Db :=
  match c with
  | GET_id id =>
      ProductController.getProduct productController
        (mkRequest id None None None None None)
  | GET_root userId offset =>
      ProductController.getProducts productController
        (mkRequest "" userId offset None None None)
  | PUT_id id updatedData =>
      ProductController.updateProduct productController
        (mkRequest id None None None updatedData None)
  | POST_root productData =>
      ProductController.createProduct productController
        (mkRequest "" None None productData None None)
  | PATCH_id_status id currentStatus =>
      ProductController.updateStatus productController
        (mkRequest id None None None None currentStatus)
  | DELETE_id id =>
      ProductController.deleteProduct productController
        (mkRequest id None None None None None)
  end.

(** What the client of a route receives. *)
Definition respond (NODE_ENV : option string) (c : ApiCall) (db : Db)
  : Response * Db :=
  (client_response NODE_ENV (fst (handle c db)), snd (handle c db)).

(** Calls served one after the other, each on the store the previous one
    left; the responses come back in order. *)
Fixpoint serve (NODE_ENV : option string) (cs : list ApiCall) (db : Db)
  : list Response * Db :=
  match cs with
  | [] => ([], db)
  | c :: rest =>
      let '(r, db') := respond NODE_ENV c db in
      let '(rs, db'') := serve NODE_ENV rest db' in
      (r :: rs, db'')
  end.

End Router.

(** ** The dispatch queue of [videoQueue] *)

Module Queue.

Record JobsOptions : Type := mkJobsOptions {
  attempts : option nat;
  backoff : option nat;
  removeOnComplete : option bool;
  removeOnFail : option bool
}.

(** [defaultJobOptions] of ['video-processing-queue']. *)
Definition defaultJobOptions : JobsOptions :=
  {| attempts := Some 1;
     backoff := None;
     removeOnComplete := Some true;
     removeOnFail := Some false |}.

(** Modelled from the spec: the message the producer gives the queue,
    [{jobId, videoLocation, userHint}]; the producer is not under
    [src/]. *)
Record Message : Type := mkMessage {
  msg_jobId : string;
  msg_videoLocation : string;
  msg_userHint : string
}.

(** Modelled from the spec: a job on the queue is the message it was
    enqueued with, together with the options it runs under. *)
Record Job : Type := mkJob {
  data : Message;
  opts : JobsOptions
}.

(** Modelled from the spec: the producer that enqueues is not under
    [src/]. The spec's queue contract is [enqueue(message)], fire and
    forget, with the message alone: the job takes the queue's
    [defaultJobOptions] and has no options of its own. *)
Definition enqueue (message : Message) : Job :=
  {| data := message; opts := defaultJobOptions |}.

(** Modelled from the spec: how one run of the pipeline executor on a
    job ends. It returns, it throws, or the process crashes before it
    ends; the executor is not under [src/]. *)
Inductive Run : Type := Returns | Throws | Crashes.

(** Modelled from the spec: the terminal states of a job on the
    queue. *)
Inductive Final : Type := Completed | Failed.

(** Modelled from the spec: the worker, and the queue library it runs
    on, are not under [src/]. The spec's worker invokes the executor once
    per delivered message and acknowledges the message after the
    executor ends, success or failure; a crash mid-processing leaves the
    message unacknowledged and it is delivered again (at-least-once).
    After a run that throws, the job is retried only while its granted
    [attempts] are not used up (no retry beyond the attempts granted);
    otherwise it is failed. [run k] tells how the [k]-th run ends. The
    result is the final state and the runs made, in order. *)
Fixpoint deliver (fuel : nat) (job : Job) (attemptsMade : nat)
         (run : nat -> Run) (k : nat) : option (Final * list nat) :=
  match fuel with
  | 0 => None
  | S fuel' =>
      match run k with
      | Returns => Some (Completed, [k])
      | Throws =>
          if (attemptsMade + 1 <? default 0 (attempts (opts job)))%nat then
            match deliver fuel' job (attemptsMade + 1) run (k + 1) with
            | Some (f, tr) => Some (f, k :: tr)
            | None => None
            end
          else Some (Failed, [k])
      | Crashes =>
          match deliver fuel' job attemptsMade run (k + 1) with
          | Some (f, tr) => Some (f, k :: tr)
          | None => None
          end
      end
  end.

End Queue.

(** ** Sample data *)

Definition no_attributes : Attributes := mkAttributes None None None None None.
Definition no_media : Media := mkMedia None [].

(** What the upload route has at hand when it records a new job: owner,
    video location, job id, and nothing of the listing yet. *)
Definition upload_data : ProductData :=
  {| in_user := Some "64b7f0c2a1d3e4f5a6b7c8d9";
     in_s3FileKey := Some "videos/demo.mp4";
     in_cdnUrl := Some "https://cdn.example/videos/demo.mp4";
     in_title := None;
     in_description := None;
     in_bulletPoints := [];
     in_searchTerms := [];
     in_suggestedCategory := None;
     in_attributes := no_attributes;
     in_media := no_media;
     in_processingStatus := None;
     in_jobId := Some "job-1";
     in_errorMessage := None |}.

(** The same data with an explicit status. *)
Definition upload_data_with_status (s : string) : ProductData :=
  {| in_user := in_user upload_data;
     in_s3FileKey := in_s3FileKey upload_data;
     in_cdnUrl := in_cdnUrl upload_data;
     in_title := None;
     in_description := None;
     in_bulletPoints := [];
     in_searchTerms := [];
     in_suggestedCategory := None;
     in_attributes := no_attributes;
     in_media := no_media;
     in_processingStatus := Some s;
     in_jobId := in_jobId upload_data;
     in_errorMessage := None |}.

(** The same data with another text for the owner. *)
Definition upload_data_of_user (u : string) : ProductData :=
  {| in_user := Some u;
     in_s3FileKey := in_s3FileKey upload_data;
     in_cdnUrl := in_cdnUrl upload_data;
     in_title := None;
     in_description := None;
     in_bulletPoints := [];
     in_searchTerms := [];
     in_suggestedCategory := None;
     in_attributes := no_attributes;
     in_media := no_media;
     in_processingStatus := None;
     in_jobId := in_jobId upload_data;
     in_errorMessage := None |}.

(** The owner of the sample data, and the texts of the first ids. *)
Definition sample_user : string := "64b7f0c2a1d3e4f5a6b7c8d9".
Definition id0 : string := "000000000000000000000000".
Definition id1 : string := "000000000000000000000001".
Definition id2 : string := "000000000000000000000002".
Definition id3 : string := "000000000000000000000003".
Definition id7 : string := "000000000000000000000007".

(** An empty store whose clock reads 1000. *)
Definition empty_db : Db := mkDb [] 0%N true 1000.

(** A database holding one record, number 0, created at time 1000 in the
    given status; the clock reads [t]. *)
Definition one_record_db (s : string) (t : nat) : Db :=
  mkDb [Model.new_Product 0%N 1000 (upload_data_with_status s)] 1%N true t.

(** The same over a connection whose writes are not acknowledged. *)
Definition one_record_db_unacknowledged (s : string) (t : nat) : Db :=
  mkDb [Model.new_Product 0%N 1000 (upload_data_with_status s)] 1%N false t.

(** A database of [n] records, numbered from 0, all of the same user,
    created at time 1000; the clock reads 2000. *)
Definition many_records_db (n : nat) : Db :=
  mkDb (map (fun i => Model.new_Product (N.of_nat i) 1000 upload_data)
            (seq 0 n))
       (N.of_nat n) true 2000.


Definition status_update (s : string) : UpdateData :=
  mkUpdateData None None None None None None None None None None (Some s)
               None None.


Definition sample_message : Queue.Message :=
  Queue.mkMessage "job-1" "videos/demo.mp4" "water bottle".

(** The two terminal values of [processingStatus]. *)
Definition terminal (s : string) : Prop := s = "completed" \/ s = "failed".

(** Ids in use are below the next one to be generated, and no two
    documents share one. *)
Definition wf_db (db : Db) : Prop :=
  NoDup (map _id (documents db)) /\
  Forall (fun p => (_id p < next_oid db)%N) (documents db).

(** * Properties *)

(** ** Lemmas on the collection *)

Section Collection.

Import Model.

Lemma find_first_None (id : ObjectId) (ds : list Product) :
  find_first id ds = None <-> id ∉ map _id ds.
Proof.
  induction ds as [|p ds IH]; simpl.
  - split; [intros _; apply not_elem_of_nil | done].
  - destruct (decide (_id p = id)) as [E|E].
    + split; [done|]. intros H. exfalso. apply H. rewrite E. left.
    + rewrite IH, not_elem_of_cons. intuition congruence.
Qed.

Lemma find_first_Some (id : ObjectId) (ds : list Product) (p : Product) :
  find_first id ds = Some p -> p ∈ ds /\ _id p = id.
Proof.
  induction ds as [|q ds IH]; simpl; [done|].
  destruct (decide (_id q = id)) as [E|E].
  - intros [= <-]. split; [left | done].
  - intros H. destruct (IH H) as [Hin Hid]. split; [by right | done].
Qed.

Lemma find_first_is_Some (id : ObjectId) (ds : list Product) :
  id ∈ map _id ds -> exists p, find_first id ds = Some p.
Proof.
  intros Hin. destruct (find_first id ds) as [p|] eqn:E; [by exists p|].
  apply find_first_None in E. done.
Qed.

Lemma find_first_elem (id : ObjectId) (ds : list Product) (p : Product) :
  find_first id ds = Some p -> id ∈ map _id ds.
Proof.
  intros Hp. apply find_first_Some in Hp as [Hin <-].
  by apply list_elem_of_fmap_2.
Qed.

(** The count [update_first] reports says whether [findById] finds. *)
Lemma update_first_count id f ds :
  fst (update_first id f ds) =
  match find_first id ds with Some _ => 1 | None => 0 end.
Proof.
  induction ds as [|p ds IH]; simpl; [done|].
  destruct (decide (_id p = id)) as [E|E]; [done|].
  destruct (update_first id f ds) as [cnt ds']. simpl in *. done.
Qed.

Lemma update_first_find id f ds :
  (forall p, _id (f p) = _id p) ->
  find_first id (snd (update_first id f ds)) = f <$> find_first id ds.
Proof.
  intros Hf. induction ds as [|p ds IH]; simpl; [done|].
  destruct (decide (_id p = id)) as [E|E]; simpl.
  - rewrite Hf. by rewrite decide_True.
  - destruct (update_first id f ds) as [cnt ds']. simpl in *.
    by rewrite decide_False.
Qed.

(** A projection that [f] respects reads the same before and after. *)
Lemma update_first_map {A} (g : Product -> A) id f ds :
  (forall p, g (f p) = g p) ->
  map g (snd (update_first id f ds)) = map g ds.
Proof.
  intros Hf. induction ds as [|p ds IH]; simpl; [done|].
  destruct (decide (_id p = id)) as [E|E]; simpl.
  - by rewrite Hf.
  - destruct (update_first id f ds) as [cnt ds']. simpl in *. by rewrite IH.
Qed.

Lemma update_first_fixed id f ds p :
  find_first id ds = Some p -> f p = p ->
  snd (update_first id f ds) = ds.
Proof.
  induction ds as [|q ds IH]; simpl; [done|].
  destruct (decide (_id q = id)) as [E|E]; simpl.
  - intros Hq Hp. injection Hq as Hq. subst q. by rewrite Hp.
  - intros Hq Hp. destruct (update_first id f ds) as [cnt ds']. simpl in *.
    by rewrite (IH Hq Hp).
Qed.


Lemma update_first_frame id id' f ds :
  (forall p, _id (f p) = _id p) -> id' <> id ->
  find_first id' (snd (update_first id f ds)) = find_first id' ds.
Proof.
  intros Hf Hne. induction ds as [|p ds IH]; simpl; [done|].
  destruct (decide (_id p = id)) as [E|E]; simpl.
  - rewrite Hf. rewrite !decide_False by congruence. done.
  - destruct (update_first id f ds) as [cnt ds']. simpl in *.
    destruct (decide (_id p = id')); [done | exact IH].
Qed.

Lemma update_first_ext id f g ds :
  (forall p, f p = g p) -> update_first id f ds = update_first id g ds.
Proof.
  intros Hfg. induction ds as [|p ds IH]; simpl; [done|].
  by rewrite IH, Hfg.
Qed.

Lemma update_first_twice id f g ds :
  (forall p, _id (f p) = _id p) ->
  snd (update_first id g (snd (update_first id f ds)))
    = snd (update_first id (fun p => g (f p)) ds).
Proof.
  intros Hf. induction ds as [|p ds IH]; simpl; [done|].
  destruct (decide (_id p = id)) as [E|E]; simpl.
  - rewrite Hf. by rewrite decide_True.
  - destruct (update_first id f ds) as [c1 ds1].
    destruct (update_first id (fun p => g (f p)) ds) as [c2 ds2].
    simpl in *. rewrite decide_False by done.
    destruct (update_first id g ds1) as [c3 ds3]. simpl in *. by rewrite IH.
Qed.

Lemma delete_first_count id ds :
  fst (delete_first id ds) =
  match find_first id ds with Some _ => 1 | None => 0 end.
Proof.
  induction ds as [|p ds IH]; simpl; [done|].
  destruct (decide (_id p = id)) as [E|E]; [done|].
  destruct (delete_first id ds) as [cnt ds']. simpl in *. done.
Qed.

Lemma delete_first_frame id id' ds :
  id' <> id ->
  find_first id' (snd (delete_first id ds)) = find_first id' ds.
Proof.
  intros Hne. induction ds as [|p ds IH]; simpl; [done|].
  destruct (decide (_id p = id)) as [E|E]; simpl.
  - by rewrite decide_False by congruence.
  - destruct (delete_first id ds) as [cnt ds']. simpl in *.
    destruct (decide (_id p = id')); [done | exact IH].
Qed.

Lemma delete_first_absent id ds :
  find_first id ds = None -> snd (delete_first id ds) = ds.
Proof.
  induction ds as [|p ds IH]; simpl; [done|].
  destruct (decide (_id p = id)) as [E|E]; [done|].
  intros H. destruct (delete_first id ds) as [cnt ds']. simpl in *.
  by rewrite (IH H).
Qed.

Lemma delete_first_length id ds p :
  find_first id ds = Some p ->
  S (length (snd (delete_first id ds))) = length ds.
Proof.
  induction ds as [|q ds IH]; simpl; [done|].
  destruct (decide (_id q = id)) as [E|E]; [done|].
  intros H. destruct (delete_first id ds) as [cnt ds']. simpl in *.
  by rewrite (IH H).
Qed.

Lemma delete_first_gone id ds :
  NoDup (map _id ds) -> find_first id (snd (delete_first id ds)) = None.
Proof.
  induction ds as [|p ds IH]; simpl; [done|].
  intros Hnd. apply NoDup_cons in Hnd as [Hp Hnd].
  destruct (decide (_id p = id)) as [E|E]; simpl.
  - apply find_first_None. by rewrite <- E.
  - destruct (delete_first id ds) as [cnt ds']. simpl in *.
    rewrite decide_False by done. by apply IH.
Qed.

Lemma delete_first_app_fresh id ds p :
  id ∉ map _id ds -> _id p = id -> snd (delete_first id (ds ++ [p])) = ds.
Proof.
  intros Hid Hp. induction ds as [|q ds IH]; simpl.
  - by rewrite decide_True.
  - simpl in Hid. apply not_elem_of_cons in Hid as [Hq Hid].
    rewrite decide_False by congruence.
    destruct (delete_first id (ds ++ [p])) as [cnt ds']. simpl in *.
    by rewrite (IH Hid).
Qed.

Lemma find_first_app_fresh id ds p :
  id ∉ map _id ds -> _id p = id -> find_first id (ds ++ [p]) = Some p.
Proof.
  intros Hid Hp. induction ds as [|q ds IH]; simpl.
  - by rewrite decide_True.
  - simpl in Hid. apply not_elem_of_cons in Hid as [Hq Hid].
    rewrite decide_False by congruence. by apply IH.
Qed.

Lemma set_documents_same db : set_documents db (documents db) = db.
Proof. by destruct db. Qed.

Lemma wf_db_fresh db : wf_db db -> next_oid db ∉ map _id (documents db).
Proof.
  intros [_ Hlt] Hin. apply list_elem_of_fmap in Hin as (p & Hp & Hin).
  rewrite Forall_forall in Hlt. specialize (Hlt p Hin). simpl in Hlt. lia.
Qed.

End Collection.

(** ** Lemmas on the service methods *)

Section Service.

Import Model ProductService.

Lemma falsy_Some_false s : falsy s = false -> exists t, s = Some t.
Proof. destruct s; [eauto | done]. Qed.

Lemma getProductById_eq db id :
  getProductById id db =
  (match castObjectId id with
   | None => Throw (CastError "ObjectId" "_id" id)
   | Some oid =>
       match find_first oid (documents db) with
       | Some p => Ok p
       | None => Throw (CustomError "Product not found" 404)
       end
   end, db).
Proof.
  unfold getProductById, findById, cast_filter, bind.
  destruct (castObjectId id) as [oid|]; simpl; [|done].
  by destruct (find_first oid (documents db)).
Qed.

(** The exits of [updateProcessingStatus] once the status given is
    truthy and the id casts, read off the update's result. *)
Lemma updateProcessingStatus_truthy db id s oid :
  falsy (Some s) = false ->
  castObjectId id = Some oid ->
  updateProcessingStatus id (Some s) db =
  (if write_ack db then
     match find_first oid (documents db) with
     | None => Throw (CustomError "Product not found" 404)
     | Some _ => Ok tt
     end
   else Throw (CustomError "Update failed, try again later" 500),
   set_documents db
     (snd (update_first oid (status_write (now db) s) (documents db)))).
Proof.
  intros Hs Hid.
  unfold updateProcessingStatus, bind, throw_if, updateOne_set_status,
    cast_filter.
  rewrite Hs, Hid. unfold ret at 1. simpl. unfold bind, ret. simpl.
  pose proof (update_first_count oid (status_write (now db) s)
                (documents db)) as Hc.
  destruct (update_first oid (status_write (now db) s) (documents db))
    as [cnt ds'].
  simpl in *. subst cnt. unfold reported.
  destruct (write_ack db); simpl; [|done].
  by destruct (find_first oid (documents db)).
Qed.

Lemma updateProcessingStatus_falsy db id s :
  falsy s = true ->
  updateProcessingStatus id s db =
  (Throw (CustomError "Id and status are required" 400), db).
Proof.
  intros Hs. unfold updateProcessingStatus, bind, throw_if. by rewrite Hs.
Qed.

Lemma updateProcessingStatus_malformed db id s :
  falsy s = false ->
  castObjectId id = None ->
  updateProcessingStatus id s db = (Throw (CastError "ObjectId" "_id" id), db).
Proof.
  intros Hs Hid.
  unfold updateProcessingStatus, bind, throw_if, updateOne_set_status,
    cast_filter.
  by rewrite Hs, Hid.
Qed.

(** Whatever a status write does, a projection that ignores
    [processingStatus] and [updatedAt] reads the same on the collection
    afterwards. *)
Lemma updateProcessingStatus_map {A} (g : Product -> A) db id s :
  (forall t u p, g (status_write u t p) = g p) ->
  map g (documents (snd (updateProcessingStatus id s db)))
    = map g (documents db).
Proof.
  intros Hg. destruct (falsy s) eqn:Hs.
  - by rewrite (updateProcessingStatus_falsy _ _ _ Hs).
  - destruct (falsy_Some_false _ Hs) as [t ->].
    destruct (castObjectId id) as [oid|] eqn:Hid.
    + rewrite (updateProcessingStatus_truthy _ _ _ _ Hs Hid). simpl.
      apply update_first_map. intros p. apply Hg.
    + by rewrite (updateProcessingStatus_malformed _ _ _ Hs Hid).
Qed.

Lemma validate_user_None v :
  validate_user v = None <->
  exists t oid, v = Some t /\ castObjectId t = Some oid.
Proof.
  unfold validate_user. destruct v as [t|].
  - destruct (castObjectId t) as [oid|] eqn:Ht.
    + split; [by eexists _, _ | done].
    + split; [done|]. intros (t' & oid & [= <-] & Ht'). congruence.
  - split; [done|]. by intros (t' & oid & ? & _).
Qed.

Lemma validate_required_None v m :
  validate_required v m = None <-> required_ok v = true.
Proof. unfold validate_required. by destruct (required_ok v). Qed.

Lemma passes_iff d :
  passes (validate d) = true <->
  ((exists t oid, in_user d = Some t /\ castObjectId t = Some oid) /\
   required_ok (in_s3FileKey d) = true /\
   required_ok (in_cdnUrl d) = true /\
   required_ok (in_jobId d) = true /\
   enum_ok (default default_processingStatus (in_processingStatus d)) = true).
Proof.
  rewrite <- validate_user_None.
  rewrite <- (validate_required_None (in_s3FileKey d) "S3 File Key is Required").
  rewrite <- (validate_required_None (in_cdnUrl d) "CDN Url is Required").
  rewrite <- (validate_required_None (in_jobId d) "Job Id is Required").
  unfold passes, validate. simpl.
  destruct (validate_user (in_user d)),
    (validate_required (in_s3FileKey d) "S3 File Key is Required"),
    (validate_required (in_cdnUrl d) "CDN Url is Required"),
    (validate_required (in_jobId d) "Job Id is Required");
    (destruct (in_processingStatus d) as [s|]; simpl;
     [destruct (enum_ok s)|]); simpl; intuition congruence.
Qed.

Lemma createProduct_valid db d :
  passes (validate d) = true ->
  createProduct (Some d) db =
  (Ok (new_Product (next_oid db) (now db) d),
   mkDb (documents db ++ [new_Product (next_oid db) (now db) d])
        (N.succ (next_oid db)) (write_ack db) (now db)).
Proof. intros Hv. simpl. unfold create_and_save. by rewrite Hv. Qed.

Lemma createProduct_invalid db d :
  passes (validate d) = false ->
  createProduct (Some d) db =
  (Throw (ValidationError (validate d)),
   mkDb (documents db) (N.succ (next_oid db)) (write_ack db) (now db)).
Proof. intros Hv. simpl. unfold create_and_save. by rewrite Hv. Qed.

End Service.

(** ** The status write: [updateProcessingStatus] *)

Section StatusWrite.

Import Model ProductService.

(** C1, as stated, fails: record 0 holds the terminal status
    ["completed"]; a later status write with ["processing"] succeeds and
    leaves the record in ["processing"]. *)
Lemma C1_terminal_status_overwritten :
  terminal "completed" /\
  processingStatus <$>
    find_first 0%N (documents (one_record_db "completed" 2000))
    = Some "completed" /\
  fst (updateProcessingStatus id0 (Some "processing")
         (one_record_db "completed" 2000)) = Ok tt /\
  processingStatus <$>
    find_first 0%N
      (documents (snd (updateProcessingStatus id0 (Some "processing")
                         (one_record_db "completed" 2000))))
    = Some "processing" /\
  "processing" <> "completed".
Proof. repeat split; [by left | discriminate]. Qed.

(** C1 (amended): a status write is unconditional. Whatever status the
    record holds, terminal or not, an acknowledged write of a non-empty
    status to an existing record succeeds, stores the status given and
    stamps [updatedAt] with the time of the write, touching nothing else
    of the record; it leaves the database as it was only when the status
    given is the one already stored and the record's [updatedAt] is
    already the time of the write. *)
Theorem C1_status_write_overwrites db id oid s p :
  falsy (Some s) = false ->
  write_ack db = true ->
  castObjectId id = Some oid ->
  find_first oid (documents db) = Some p ->
  fst (updateProcessingStatus id (Some s) db) = Ok tt /\
  (exists q,
     find_first oid (documents (snd (updateProcessingStatus id (Some s) db)))
       = Some q /\
     processingStatus q = s /\
     updatedAt q = now db /\
     (_id q, user q, s3FileKey q, cdnUrl q, title q, description q,
      bulletPoints q, searchTerms q, suggestedCategory q, attributes q,
      media q, jobId q, errorMessage q, createdAt q)
     = (_id p, user p, s3FileKey p, cdnUrl p, title p, description p,
        bulletPoints p, searchTerms p, suggestedCategory p, attributes p,
        media p, jobId p, errorMessage p, createdAt p)) /\
  (snd (updateProcessingStatus id (Some s) db) = db <->
   processingStatus p = s /\ updatedAt p = now db).
Proof.
  intros Hs Hack Hid Hp. rewrite (updateProcessingStatus_truthy _ _ _ _ Hs Hid).
  simpl. rewrite Hp, Hack. split; [done|].
  rewrite update_first_find by done. rewrite Hp. split.
  { eexists. split; [reflexivity|]. done. }
  split.
  - intros Hdb.
    assert (find_first oid
              (snd (update_first oid (status_write (now db) s)
                      (documents db))) = Some p) as Hf.
    { unfold set_documents in Hdb. rewrite <- Hdb in Hp at 1. exact Hp. }
    rewrite update_first_find in Hf by done. rewrite Hp in Hf.
    simpl in Hf. injection Hf as Hf. rewrite <- Hf. done.
  - intros [<- Ht]. rewrite (update_first_fixed _ _ _ p Hp).
    + apply set_documents_same.
    + rewrite <- Ht. by destruct p.
Qed.

Lemma C1_status_write_overwrites_witness :
  fst (updateProcessingStatus id0 (Some "failed")
         (one_record_db "completed" 2000)) = Ok tt /\
  (snd (updateProcessingStatus id0 (Some "failed")
          (one_record_db "completed" 2000))
     = one_record_db "completed" 2000 <->
   processingStatus (new_Product 0%N 1000 (upload_data_with_status "completed"))
     = "failed" /\
   updatedAt (new_Product 0%N 1000 (upload_data_with_status "completed"))
     = now (one_record_db "completed" 2000)).
Proof.
  destruct (C1_status_write_overwrites (one_record_db "completed" 2000) id0
              0%N "failed"
              (new_Product 0%N 1000 (upload_data_with_status "completed"))
              eq_refl eq_refl eq_refl eq_refl) as (H1 & _ & H3).
  split; [exact H1 | exact H3].
Defined.

(** C5, as stated, fails: record 0 is in ["processing"] with no
    [errorMessage]; the status write to ["failed"] succeeds and the
    record is then failed with its [errorMessage] still absent. *)
Lemma C5_failed_without_errorMessage :
  fst (updateProcessingStatus id0 (Some "failed")
         (one_record_db "processing" 2000)) = Ok tt /\
  (fun p => (processingStatus p, errorMessage p)) <$>
    find_first 0%N
      (documents (snd (updateProcessingStatus id0 (Some "failed")
                         (one_record_db "processing" 2000))))
    = Some ("failed", None).
Proof. split; reflexivity. Qed.

(** C5 (amended): the status write never writes [errorMessage]. After
    any call, successful or not, every record carries the
    [errorMessage] and the [_id] it carried before, whatever status was
    written: a record moved to ["failed"] has a message only if it had
    one, and a record moved elsewhere keeps the message it had. *)
Theorem C5_status_write_keeps_errorMessage db id s :
  map errorMessage (documents (snd (updateProcessingStatus id s db)))
    = map errorMessage (documents db) /\
  map _id (documents (snd (updateProcessingStatus id s db)))
    = map _id (documents db).
Proof. split; by apply updateProcessingStatus_map. Qed.

(** C7, as stated, fails: a status write for an id the store does not
    hold throws a 404 [CustomError] to its caller, and one over a
    connection that does not acknowledge writes throws a 500; the
    route's handler passes the error on to [next]. *)
Lemma C7_status_write_throws :
  updateProcessingStatus id0 (Some "processing") empty_db
    = (Throw (CustomError "Product not found" 404), empty_db) /\
  updateProcessingStatus id0 (Some "processing")
      (one_record_db_unacknowledged "pending" 2000)
    = (Throw (CustomError "Update failed, try again later" 500),
       mkDb [status_write 2000 "processing"
               (new_Product 0%N 1000 (upload_data_with_status "pending"))]
            1%N false 2000) /\
  fst (ProductController.updateStatus productController
         (mkRequest id0 None None None None (Some "processing")) empty_db)
    = Next (CustomError "Product not found" 404).
Proof. repeat split. Qed.

(** C7 (amended): the status write is not best-effort. It returns
    normally only when the status given is non-empty, a record has the
    id and the write is acknowledged. Otherwise it throws to its caller:
    a [CustomError] 400 for a missing or empty status, 404 when an
    acknowledged write matched no record, 500 when the write matched a
    record and was not acknowledged, and a [CastError] when the id is no
    ObjectId; and the route's handler hands whatever is thrown to
    [next]. *)
Theorem C7_status_write_raises db id s :
  (fst (updateProcessingStatus id s db) = Ok tt <->
     falsy s = false /\
     (exists oid, castObjectId id = Some oid /\
                  oid ∈ map _id (documents db)) /\
     write_ack db = true) /\
  (falsy s = true ->
     fst (updateProcessingStatus id s db)
       = Throw (CustomError "Id and status are required" 400)) /\
  (forall oid, falsy s = false -> write_ack db = true ->
     castObjectId id = Some oid -> oid ∉ map _id (documents db) ->
     fst (updateProcessingStatus id s db)
       = Throw (CustomError "Product not found" 404)) /\
  (forall oid, falsy s = false -> write_ack db = false ->
     castObjectId id = Some oid -> oid ∈ map _id (documents db) ->
     fst (updateProcessingStatus id s db)
       = Throw (CustomError "Update failed, try again later" 500)) /\
  (falsy s = false -> castObjectId id = None ->
     fst (updateProcessingStatus id s db)
       = Throw (CastError "ObjectId" "_id" id)) /\
  (forall e body_ update_ uid off,
     fst (updateProcessingStatus id s db) = Throw e ->
     fst (ProductController.updateStatus productController
            (mkRequest id uid off body_ update_ s) db) = Next e).
Proof.
  assert (forall e body_ update_ uid off,
     fst (updateProcessingStatus id s db) = Throw e ->
     fst (ProductController.updateStatus productController
            (mkRequest id uid off body_ update_ s) db) = Next e) as Hnext.
  { intros e b u' u o. unfold ProductController.updateStatus, try_catch, bind.
    simpl. destruct (updateProcessingStatus id s db) as [[[]|e'] db'];
      simpl; congruence. }
  destruct (falsy s) eqn:Hs.
  - rewrite (updateProcessingStatus_falsy _ _ _ Hs) in *. simpl.
    repeat split; try done. by intros [? _].
  - destruct (falsy_Some_false _ Hs) as [t ->].
    destruct (castObjectId id) as [oid|] eqn:Hid.
    + rewrite (updateProcessingStatus_truthy _ _ _ _ Hs Hid) in *. simpl.
      destruct (find_first oid (documents db)) as [p|] eqn:Hp.
      * pose proof (find_first_elem _ _ _ Hp) as Hin.
        destruct (write_ack db); repeat split; try done;
          try (by eauto);
          try (by intros (_ & _ & ?));
          try (by intros o _ _ [= <-] ?).
      * apply find_first_None in Hp.
        destruct (write_ack db); repeat split; try done;
          try (by intros (_ & (o & [= <-] & ?) & _));
          try (by intros (_ & _ & ?));
          try (by intros o _ _ [= <-] ?).
    + rewrite (updateProcessingStatus_malformed _ _ _ Hs Hid) in *. simpl.
      repeat split; try done. by intros (_ & (o & ? & _) & _).
Qed.

Lemma C7_status_write_raises_witness :
  fst (updateProcessingStatus id3 (Some "failed")
         (one_record_db "processing" 2000))
    = Throw (CustomError "Product not found" 404) /\
  fst (updateProcessingStatus id0 None (one_record_db "processing" 2000))
    = Throw (CustomError "Id and status are required" 400).
Proof.
  split.
  - destruct (C7_status_write_raises (one_record_db "processing" 2000) id3
                (Some "failed")) as (_ & _ & H & _).
    apply (H 3%N); [reflexivity | reflexivity | reflexivity |].
    simpl. rewrite not_elem_of_cons. split; [lia | apply not_elem_of_nil].
  - apply (C7_status_write_raises (one_record_db "processing" 2000) id0 None).
    reflexivity.
Defined.

End StatusWrite.

(** ** Record creation: [createProduct] *)

Section Creation.

Import Model ProductService.

(** C2, as stated, fails: on an empty store [createProduct] brings a
    Product document into existence whose status is ["pending"], and one
    whose status is ["failed"]; the status query finds it. *)
Lemma C2_product_exists_while_pending :
  createProduct (Some upload_data) empty_db
    = (Ok (new_Product 0%N 1000 upload_data),
       mkDb [new_Product 0%N 1000 upload_data] 1%N true 1000) /\
  processingStatus (new_Product 0%N 1000 upload_data) = "pending" /\
  fst (getProductById id0 (mkDb [new_Product 0%N 1000 upload_data] 1%N true
                                1000))
    = Ok (new_Product 0%N 1000 upload_data) /\
  createProduct (Some (upload_data_with_status "failed")) empty_db
    = (Ok (new_Product 0%N 1000 (upload_data_with_status "failed")),
       one_record_db "failed" 1000).
Proof. repeat split. Qed.

(** C2 (amended): job and product are one document. A Product
    document exists from the moment [createProduct] accepts its data,
    with the status given or, by default, ["pending"]; the status query
    returns it from then on; and a status write neither creates nor
    removes a document. Existence does not depend on the status. *)
Theorem C2_product_exists_whatever_status db d :
  wf_db db ->
  passes (validate d) = true ->
  let p := new_Product (next_oid db) (now db) d in
  let db' := snd (createProduct (Some d) db) in
  fst (createProduct (Some d) db) = Ok p /\
  documents db' = (documents db ++ [p])%list /\
  processingStatus p
    = default default_processingStatus (in_processingStatus d) /\
  (forall id, castObjectId id = Some (_id p) ->
     getProductById id db' = (Ok p, db')) /\
  wf_db db' /\
  (forall id s,
     map _id (documents (snd (updateProcessingStatus id s db')))
       = map _id (documents db')).
Proof.
  intros Hwf Hv p db'. subst db'. rewrite (createProduct_valid _ _ Hv).
  simpl. fold p. repeat split.
  - intros id Hid. rewrite getProductById_eq, Hid. simpl.
    rewrite (find_first_app_fresh (next_oid db)); [done | | done].
    by apply wf_db_fresh.
  - simpl. rewrite map_app. simpl. apply NoDup_app. split; [apply Hwf|].
    split; [|apply NoDup_singleton].
    intros x Hx Hx'. apply list_elem_of_singleton in Hx'. subst x.
    by apply (wf_db_fresh db).
  - simpl. apply Forall_app. split.
    + destruct Hwf as [_ Hlt]. eapply Forall_impl; [exact Hlt|].
      simpl. intros; lia.
    + apply Forall_singleton. simpl. lia.
  - intros id s. by apply updateProcessingStatus_map.
Qed.

Lemma C2_product_exists_whatever_status_witness :
  fst (createProduct (Some (upload_data_with_status "queued"))
         (one_record_db "failed" 2000))
    = Ok (new_Product 1%N 2000 (upload_data_with_status "queued")) /\
  processingStatus (new_Product 1%N 2000 (upload_data_with_status "queued"))
    = "queued".
Proof.
  assert (wf_db (one_record_db "failed" 2000)) as Hwf.
  { split; simpl.
    - apply NoDup_singleton.
    - apply Forall_singleton. simpl. lia. }
  destruct (C2_product_exists_whatever_status (one_record_db "failed" 2000)
              (upload_data_with_status "queued") Hwf eq_refl)
    as (H1 & _ & H3 & _).
  split; [exact H1 | exact H3].
Defined.




(** C4, as stated, fails: data that give no status are stored with
    status ["pending"], which is not ["processing"]. *)
Lemma C4_new_record_is_pending :
  in_processingStatus upload_data = None /\
  (exists p, fst (createProduct (Some upload_data) empty_db) = Ok p) /\
  processingStatus <$>
    last (documents (snd (createProduct (Some upload_data) empty_db)))
    = Some "pending" /\
  "pending" <> "processing".
Proof. repeat split; [by eexists | discriminate]. Qed.

(** C4 (amended): every newly created record starts with status
    ["pending"], the schema's default: for every input that passes
    validation and gives no status, [createProduct] returns the record,
    stores it last in the collection, and its status is ["pending"]. *)
Theorem C4_new_record_starts_pending db d t oid :
  in_processingStatus d = None ->
  in_user d = Some t ->
  castObjectId t = Some oid ->
  required_ok (in_s3FileKey d) = true ->
  required_ok (in_cdnUrl d) = true ->
  required_ok (in_jobId d) = true ->
  exists p,
    fst (createProduct (Some d) db) = Ok p /\
    last (documents (snd (createProduct (Some d) db))) = Some p /\
    processingStatus p = "pending".
Proof.
  intros Hst Hu Ht Hk Hc Hj.
  assert (passes (validate d) = true) as Hv.
  { apply passes_iff. rewrite Hst. repeat split; try done. by eexists _, _. }
  rewrite (createProduct_valid _ _ Hv). simpl.
  eexists. split; [done|]. split; [by rewrite last_snoc|].
  simpl. by rewrite Hst.
Qed.

Lemma C4_new_record_starts_pending_witness :
  exists p,
    fst (createProduct (Some upload_data) (one_record_db "completed" 2000))
      = Ok p /\
    last (documents (snd (createProduct (Some upload_data)
                            (one_record_db "completed" 2000)))) = Some p /\
    processingStatus p = "pending".
Proof.
  apply (C4_new_record_starts_pending (one_record_db "completed" 2000)
           upload_data sample_user
           (default 0%N (castObjectId sample_user)));
    reflexivity.
Defined.

End Creation.

(** ** Reads: [getProductById] and [getProducts] *)

Section Reads.

Import Model ProductService.

Lemma cast_nonempty t oid : castObjectId t = Some oid -> falsy (Some t) = false.
Proof. by destruct t. Qed.

Lemma getProducts_eq db t uid offset :
  castObjectId t = Some uid ->
  getProducts (Some t) offset db =
  (Ok {| products :=
           take 15 (drop (default 0 offset) (by_user uid (documents db)));
         isMore :=
           (Z.of_nat (length (by_user uid (documents db)))
              - Z.of_nat (default 0%nat offset) >? 15)%Z;
         totalProductCnt := length (by_user uid (documents db)) |}, db).
Proof.
  intros Ht. unfold getProducts, bind, throw_if.
  rewrite (cast_nonempty _ _ Ht). simpl.
  unfold find_skip_limit, countDocuments, cast_filter, bind. by rewrite Ht.
Qed.

Lemma getProducts_malformed db t offset :
  falsy (Some t) = false ->
  castObjectId t = None ->
  getProducts (Some t) offset db = (Throw (CastError "ObjectId" "user" t), db).
Proof.
  intros Hu Ht. unfold getProducts, bind, throw_if. rewrite Hu. simpl.
  unfold find_skip_limit, cast_filter, bind. by rewrite Ht.
Qed.

Lemma getProducts_falsy db userId offset :
  falsy userId = true ->
  getProducts userId offset db
    = (Throw (CustomError "User id is required" 500), db).
Proof. intros Hu. unfold getProducts, bind, throw_if. by rewrite Hu. Qed.

(** C8, at an input where the code breaks it: the text ["abc"] is the
    id of no stored record, yet the status query for it does not answer
    NotFound. The cast of the id throws a [CastError], which carries no
    status code, and the route answers it with an unclassified 500,
    status ["error"] and the generic message, where a 404 is due. *)
Lemma C8_malformed_id_is_500 :
  castObjectId "abc" = None /\
  getProductById "abc" (one_record_db "processing" 2000)
    = (Throw (CastError "ObjectId" "_id" "abc"),
       one_record_db "processing" 2000) /\
  client_response None
    (fst (ProductController.getProduct productController
            (mkRequest "abc" None None None None None)
            (one_record_db "processing" 2000)))
    = mkResponse 500 "error" NoData "Something went wrong, try again later"
                 None.
Proof. repeat split. Qed.

(** X17: the answers of the status query. For an id that is a
    well-formed ObjectId and that no stored record has,
    [getProductById] throws the [CustomError] ["Product not found"] with
    status code 404, and the route answers 404 with status ["fail"]; for
    an id that is stored it returns a stored record with that id, which
    the route sends with a 200; for a text that is no ObjectId it throws
    a [CastError], which the route answers with 500, status ["error"]
    and the generic message. The store is not changed in any case. *)
Theorem status_query_answers db id :
  (forall oid, castObjectId id = Some oid -> oid ∉ map _id (documents db) ->
     getProductById id db
       = (Throw (CustomError "Product not found" 404), db) /\
     forall env req, params_id req = id ->
       client_response env
         (fst (ProductController.getProduct productController req db))
       = mkResponse 404 "fail" NoData "Product not found"
           (if development env
            then Some (StackOf (CustomError "Product not found" 404))
            else None)) /\
  (forall oid, castObjectId id = Some oid -> oid ∈ map _id (documents db) ->
     exists p, p ∈ documents db /\ _id p = oid /\
       getProductById id db = (Ok p, db) /\
       forall req, params_id req = id ->
         fst (ProductController.getProduct productController req db)
         = Sent (mkResponse 200 "success" (DataProduct p)
                            "Product fetched successfully" None)) /\
  (castObjectId id = None ->
     getProductById id db = (Throw (CastError "ObjectId" "_id" id), db) /\
     forall env req, params_id req = id ->
       client_response env
         (fst (ProductController.getProduct productController req db))
       = mkResponse 500 "error" NoData "Something went wrong, try again later"
           (if development env
            then Some (StackOf (CastError "ObjectId" "_id" id))
            else None)).
Proof.
  split; [|split].
  - intros oid Hc Hid. apply find_first_None in Hid.
    assert (getProductById id db
            = (Throw (CustomError "Product not found" 404), db)) as Hget.
    { by rewrite getProductById_eq, Hc, Hid. }
    split; [exact Hget|]. intros env req <-.
    unfold ProductController.getProduct, try_catch, bind. simpl.
    by rewrite Hget.
  - intros oid Hc Hid. destruct (find_first_is_Some _ _ Hid) as [p Hp].
    destruct (find_first_Some _ _ _ Hp) as [Hin Hidp].
    assert (getProductById id db = (Ok p, db)) as Hget.
    { by rewrite getProductById_eq, Hc, Hp. }
    exists p. repeat split; try done. intros req <-.
    unfold ProductController.getProduct, try_catch, bind. simpl.
    by rewrite Hget.
  - intros Hc.
    assert (getProductById id db
            = (Throw (CastError "ObjectId" "_id" id), db)) as Hget.
    { by rewrite getProductById_eq, Hc. }
    split; [exact Hget|]. intros env req <-.
    unfold ProductController.getProduct, try_catch, bind. simpl.
    by rewrite Hget.
Qed.

Lemma status_query_answers_witness :
  getProductById id7 (one_record_db "processing" 2000)
    = (Throw (CustomError "Product not found" 404),
       one_record_db "processing" 2000) /\
  (exists p, p ∈ documents (one_record_db "processing" 2000) /\
     _id p = 0%N /\
     getProductById id0 (one_record_db "processing" 2000)
       = (Ok p, one_record_db "processing" 2000)) /\
  getProductById "not-an-id" (one_record_db "processing" 2000)
    = (Throw (CastError "ObjectId" "_id" "not-an-id"),
       one_record_db "processing" 2000).
Proof.
  split; [|split].
  - destruct (status_query_answers (one_record_db "processing" 2000)
                id7) as [H _].
    apply (H 7%N); [reflexivity|].
    simpl. rewrite not_elem_of_cons. split; [lia | apply not_elem_of_nil].
  - destruct (status_query_answers (one_record_db "processing" 2000)
                id0) as (_ & H & _).
    destruct (H 0%N) as (p & Hin & Hid & Hget & _);
      [reflexivity | simpl; left |].
    exists p. auto.
  - apply (status_query_answers (one_record_db "processing" 2000)
             "not-an-id").
    reflexivity.
Defined.

(** C9, as stated, fails: the text ["abc"] is a [userId] with no stored
    product, yet for it [getProducts] returns no page: the cast of the
    filter throws a [CastError]. *)
Lemma C9_malformed_userId_throws :
  castObjectId "abc" = None /\
  getProducts (Some "abc") None (many_records_db 3)
    = (Throw (CastError "ObjectId" "user" "abc"), many_records_db 3).
Proof. split; reflexivity. Qed.

(** C9 (amended): the page of a user's products. For a [userId] that
    is a well-formed ObjectId, with [N] the number of stored products
    whose [user] is that id, [getProducts] returns the first 15 of those
    that remain after skipping [offset] (so at most 15), reports
    [totalProductCnt = N], and [isMore] is true exactly when
    [N - offset > 15]. Without a [userId] it throws a [CustomError]
    whose status code is the constructor's default 500, not 400. *)
Theorem C9_getProducts_page db userId offset :
  (forall t uid, userId = Some t -> castObjectId t = Some uid ->
     exists pg,
       getProducts userId offset db = (Ok pg, db) /\
       products pg
         = take 15 (drop (default 0 offset)
                      (filter (fun p => user p = uid) (documents db))) /\
       (length (products pg) <= 15)%nat /\
       totalProductCnt pg
         = length (filter (fun p => user p = uid) (documents db)) /\
       (isMore pg = true <->
        (Z.of_nat (length (filter (fun p => user p = uid) (documents db)))
           - Z.of_nat (default 0%nat offset) > 15)%Z)) /\
  (falsy userId = true ->
     getProducts userId offset db
       = (Throw (CustomError "User id is required" 500), db) /\
     err_statusCode (new_CustomError (Some "User id is required") None)
       = Some 500 /\
     500 <> 400).
Proof.
  split.
  - intros t uid -> Ht. eexists. rewrite (getProducts_eq _ _ _ _ Ht).
    split; [reflexivity|]. simpl. unfold by_user. split; [done|].
    split; [rewrite length_take; lia|]. split; [done|].
    rewrite Z.gtb_gt. lia.
  - intros Hu. rewrite (getProducts_falsy _ _ _ Hu). repeat split. lia.
Qed.

Lemma C9_getProducts_page_witness :
  exists pg,
    getProducts (Some sample_user) (Some 1) (many_records_db 17)
      = (Ok pg, many_records_db 17) /\
    products pg
      = take 15 (drop (default 0 (Some 1))
                   (filter (fun p => user p
                                     = default 0%N (castObjectId sample_user))
                           (documents (many_records_db 17)))) /\
    (length (products pg) <= 15)%nat /\
    totalProductCnt pg
      = length (filter (fun p => user p
                                 = default 0%N (castObjectId sample_user))
                       (documents (many_records_db 17))) /\
    (isMore pg = true <->
     (Z.of_nat (length (filter (fun p => user p
                                   = default 0%N (castObjectId sample_user))
                               (documents (many_records_db 17))))
        - Z.of_nat (default 0%nat (Some 1%nat)) > 15)%Z).
Proof.
  destruct (C9_getProducts_page (many_records_db 17) (Some sample_user)
              (Some 1)) as [H _].
  apply (H sample_user (default 0%N (castObjectId sample_user)));
    reflexivity.
Defined.

(** The page of the witness, evaluated: records 1 to 15 of 17, and one
    more to come. *)
Example getProducts_page_of_17 :
  (fun pg => (map _id (ProductService.products pg),
              isMore pg, totalProductCnt pg)) <$>
    (match fst (getProducts (Some sample_user) (Some 1)
                  (many_records_db 17)) with
     | Ok pg => Some pg
     | Throw _ => None
     end)
  = Some (map N.of_nat (seq 1 15), true, 17).
Proof. vm_compute. reflexivity. Qed.

End Reads.

(** ** The delete route *)

Section DeleteRoute.

Import Model ProductService.

(** The service method itself removes a stored record. *)
Example deleteProduct_service_removes :
  ProductService.deleteProduct id0 (one_record_db "completed" 2000)
    = (Ok tt, mkDb [] 1%N true 2000).
Proof. reflexivity. Qed.

(** C10: every invocation of the controller's [deleteProduct] handler
    fails. Whatever service the controller was built with, whatever the
    request and the store, resolving the bare identifier
    [productService] throws a [ReferenceError], the handler takes its
    error branch [next(err)], the client is answered 500, and the store
    is left as it was: the service's [deleteProduct] is not reached and
    no document is removed. *)
Theorem C10_delete_route_always_fails
        (this : ProductController.t) (req : Request) (db : Db)
        (env : option string) :
  ProductController.deleteProduct this req db
    = (Next (ReferenceError "productService is not defined"), db) /\
  client_response env (fst (ProductController.deleteProduct this req db))
    = mkResponse 500 "error" NoData "Something went wrong, try again later"
        (if development env
         then Some (StackOf (ReferenceError "productService is not defined"))
         else None) /\
  documents (snd (ProductController.deleteProduct this req db))
    = documents db.
Proof. repeat split. Qed.

End DeleteRoute.

(** ** The dispatch queue *)

Section DispatchQueue.

Import Queue.

(** C6, as stated, fails: a job enqueued with the queue's defaults whose
    first run crashes before it ends is delivered again and run a second
    time. *)
Lemma C6_crashed_run_is_redelivered :
  deliver 2 (enqueue sample_message) 0
          (fun k => match k with 0 => Crashes | _ => Returns end) 0
    = Some (Completed, [0; 1]).
Proof. reflexivity. Qed.

(** C6 (amended): the queue's default job options grant one attempt and
    no backoff. A job enqueued with them whose first run ends, by
    returning or by throwing, is run exactly once: a job that fails is
    moved to the failed set and is never run again. Only a run that
    crashes before it ends leaves the message unacknowledged, to be
    delivered and run again. *)
Theorem C6_single_attempt message run fuel :
  run 0 <> Crashes ->
  attempts (opts (enqueue message)) = Some 1 /\
  backoff (opts (enqueue message)) = None /\
  deliver (S fuel) (enqueue message) 0 run 0
    = Some (match run 0 with Returns => Completed | _ => Failed end, [0]).
Proof.
  intros Hrun. repeat split. simpl. by destruct (run 0).
Qed.

Lemma C6_single_attempt_witness :
  attempts (opts (enqueue sample_message)) = Some 1 /\
  backoff (opts (enqueue sample_message)) = None /\
  deliver 3 (enqueue sample_message) 0 (fun _ => Throws) 0
    = Some (Failed, [0]).
Proof.
  apply (C6_single_attempt sample_message (fun _ => Throws) 2). discriminate.
Defined.

End DispatchQueue.

(** * Further properties of the service, the routes and the error handler *)

(** ** The writes of the service *)

Section ServiceWrites.

Import Model ProductService.

Lemma bind_cast_filter {A} path v oid (k : ObjectId -> M A) db :
  castObjectId v = Some oid -> bind (cast_filter path v) k db = k oid db.
Proof. intros Hv. unfold bind, cast_filter. by rewrite Hv. Qed.

Lemma deleteProduct_eq db id oid :
  castObjectId id = Some oid ->
  deleteProduct id db =
  (if write_ack db then
     match find_first oid (documents db) with
     | Some _ => Ok tt
     | None => Throw (CustomError "Product not found" 404)
     end
   else Ok tt,
   set_documents db (snd (delete_first oid (documents db)))).
Proof.
  intros Hid. unfold deleteProduct, deleteOne. unfold bind at 1.
  rewrite (bind_cast_filter _ _ oid) by done.
  pose proof (delete_first_count oid (documents db)) as Hc.
  destruct (delete_first oid (documents db)) as [cnt ds']. simpl in *.
  subst cnt. unfold throw_if, reported. destruct (write_ack db); simpl; [|done].
  by destruct (find_first oid (documents db)).
Qed.

Lemma deleteProduct_malformed db id :
  castObjectId id = None ->
  deleteProduct id db = (Throw (CastError "ObjectId" "_id" id), db).
Proof.
  intros Hid. unfold deleteProduct, bind, deleteOne, cast_filter.
  by rewrite Hid.
Qed.

Lemma updateProductById_eq db id oid u usr :
  castObjectId id = Some oid ->
  cast_up_user u = Ok usr ->
  updateProductById id (Some u) db =
  (if write_ack db then
     match find_first oid (documents db) with
     | None => Throw (CustomError "Product not found" 404)
     | Some _ => Ok tt
     end
   else Throw (CustomError "Update failed, try again later" 500),
   set_documents db
     (snd (update_first oid (fun p => touch (now db) (apply_set u usr p))
             (documents db)))).
Proof.
  intros Hid Hu. unfold updateProductById, updateOne_set.
  unfold bind at 1. rewrite (bind_cast_filter _ _ oid) by done.
  unfold bind at 1. rewrite Hu.
  pose proof (update_first_count oid
                (fun p => touch (now db) (apply_set u usr p))
                (documents db)) as Hc.
  destruct (update_first oid (fun p => touch (now db) (apply_set u usr p))
              (documents db)) as [cnt ds'].
  simpl in *. subst cnt. unfold bind, throw_if, reported.
  destruct (write_ack db); simpl; [|done].
  by destruct (find_first oid (documents db)).
Qed.

Lemma updateProductById_malformed db id u :
  castObjectId id = None ->
  updateProductById id (Some u) db
    = (Throw (CastError "ObjectId" "_id" id), db).
Proof.
  intros Hid. unfold updateProductById, bind, updateOne_set, cast_filter.
  by rewrite Hid.
Qed.

Lemma updateProductById_bad_user db id oid u e :
  castObjectId id = Some oid ->
  cast_up_user u = Throw e ->
  updateProductById id (Some u) db = (Throw e, db).
Proof.
  intros Hid Hu. unfold updateProductById, updateOne_set.
  unfold bind at 1. rewrite (bind_cast_filter _ _ oid) by done.
  unfold bind. by rewrite Hu.
Qed.

(** X1: [deleteProduct] on the service, for an id that is a
    well-formed ObjectId. When the write is acknowledged and no stored
    record has the id, it throws the 404 [CustomError] and leaves the
    store as it was. When a record has the id it returns normally and
    the collection is one document shorter; with unique ids the status
    query for that id then answers 404. When the write is not
    acknowledged it returns normally whether or not a record has the
    id. *)
Theorem deleteProduct_removes_or_404 db id oid :
  castObjectId id = Some oid ->
  (write_ack db = true -> oid ∉ map _id (documents db) ->
     deleteProduct id db = (Throw (CustomError "Product not found" 404), db)) /\
  (oid ∈ map _id (documents db) ->
     fst (deleteProduct id db) = Ok tt /\
     S (length (documents (snd (deleteProduct id db))))
       = length (documents db) /\
     (NoDup (map _id (documents db)) ->
      fst (getProductById id (snd (deleteProduct id db)))
        = Throw (CustomError "Product not found" 404))) /\
  (write_ack db = false -> fst (deleteProduct id db) = Ok tt).
Proof.
  intros Hc. rewrite (deleteProduct_eq _ _ _ Hc). split; [|split].
  - intros Hack Hid. apply find_first_None in Hid. rewrite Hack, Hid.
    by rewrite (delete_first_absent _ _ Hid), set_documents_same.
  - intros Hid. destruct (find_first_is_Some _ _ Hid) as [p Hp].
    rewrite Hp. simpl. split; [by destruct (write_ack db)|]. split.
    + by apply (delete_first_length _ _ p).
    + intros Hnd. rewrite getProductById_eq, Hc. simpl.
      by rewrite delete_first_gone.
  - by intros ->.
Qed.

Lemma deleteProduct_removes_or_404_witness :
  deleteProduct id7 (many_records_db 3)
    = (Throw (CustomError "Product not found" 404), many_records_db 3) /\
  fst (deleteProduct id1 (many_records_db 3)) = Ok tt /\
  S (length (documents (snd (deleteProduct id1 (many_records_db 3)))))
    = length (documents (many_records_db 3)) /\
  fst (deleteProduct id7 (one_record_db_unacknowledged "pending" 2000))
    = Ok tt.
Proof.
  split; [|split; [|split]].
  - destruct (deleteProduct_removes_or_404 (many_records_db 3) id7 7%N
                eq_refl) as [H _].
    apply H; [reflexivity|]. simpl. rewrite !not_elem_of_cons.
    repeat split; try lia. apply not_elem_of_nil.
  - destruct (deleteProduct_removes_or_404 (many_records_db 3) id1 1%N
                eq_refl) as (_ & H & _).
    destruct H as (H1 & _); [simpl; right; left | exact H1].
  - destruct (deleteProduct_removes_or_404 (many_records_db 3) id1 1%N
                eq_refl) as (_ & H & _).
    destruct H as (_ & H2 & _); [simpl; right; left | exact H2].
  - destruct (deleteProduct_removes_or_404
                (one_record_db_unacknowledged "pending" 2000) id7 7%N
                eq_refl) as (_ & _ & H).
    apply H. reflexivity.
Defined.

(** X2: a write addresses one record. After a status write, an update
    or a delete for [id], whether it succeeded or threw, the status
    query for any id that does not denote the same ObjectId answers what
    it answered before. *)
Theorem writes_leave_other_records db id id' s u :
  (forall oid, castObjectId id = Some oid -> castObjectId id' <> Some oid) ->
  fst (getProductById id' (snd (updateProcessingStatus id s db)))
    = fst (getProductById id' db) /\
  fst (getProductById id' (snd (updateProductById id u db)))
    = fst (getProductById id' db) /\
  fst (getProductById id' (snd (deleteProduct id db)))
    = fst (getProductById id' db).
Proof.
  intros Hne. rewrite !getProductById_eq. simpl.
  destruct (castObjectId id') as [oid'|] eqn:Hid'; [|done].
  destruct (castObjectId id) as [oid|] eqn:Hid.
  - assert (oid' <> oid) as Hd.
    { intros ->. by apply (Hne oid). }
    split; [|split].
    + destruct (falsy s) eqn:Hs.
      * by rewrite (updateProcessingStatus_falsy _ _ _ Hs).
      * destruct (falsy_Some_false _ Hs) as [t ->].
        rewrite (updateProcessingStatus_truthy _ _ _ _ Hs Hid). simpl.
        by rewrite update_first_frame.
    + destruct u as [u|]; [|done].
      destruct (cast_up_user u) as [usr|e] eqn:Hu.
      * rewrite (updateProductById_eq _ _ _ _ _ Hid Hu). simpl.
        by rewrite update_first_frame.
      * by rewrite (updateProductById_bad_user _ _ _ _ _ Hid Hu).
    + rewrite (deleteProduct_eq _ _ _ Hid). simpl.
      by rewrite delete_first_frame.
  - split; [|split].
    + destruct (falsy s) eqn:Hs.
      * by rewrite (updateProcessingStatus_falsy _ _ _ Hs).
      * by rewrite (updateProcessingStatus_malformed _ _ _ Hs Hid).
    + destruct u as [u|]; [|done].
      by rewrite (updateProductById_malformed _ _ _ Hid).
    + by rewrite (deleteProduct_malformed _ _ Hid).
Qed.

Lemma writes_leave_other_records_witness :
  fst (getProductById id2 (snd (updateProcessingStatus id1 (Some "failed")
                                  (many_records_db 3))))
    = fst (getProductById id2 (many_records_db 3)) /\
  fst (getProductById id2 (snd (updateProductById id1
                                  (Some (status_update "x"))
                                  (many_records_db 3))))
    = fst (getProductById id2 (many_records_db 3)) /\
  fst (getProductById id2 (snd (deleteProduct id1 (many_records_db 3))))
    = fst (getProductById id2 (many_records_db 3)).
Proof.
  apply (writes_leave_other_records (many_records_db 3) id1 id2).
  intros oid [= <-]. discriminate.
Defined.

(** X3: creating a record and deleting it again gives back the
    collection: on a store with unique ids below the next one, after
    [createProduct] has accepted the data, [deleteProduct] of the new
    record's id returns normally and the documents are those from before
    the creation. *)
Theorem create_then_delete_restores db d id :
  wf_db db ->
  passes (validate d) = true ->
  castObjectId id = Some (next_oid db) ->
  fst (deleteProduct id (snd (createProduct (Some d) db))) = Ok tt /\
  documents (snd (deleteProduct id (snd (createProduct (Some d) db))))
    = documents db.
Proof.
  intros Hwf Hv Hid. rewrite (createProduct_valid _ _ Hv). simpl snd.
  rewrite (deleteProduct_eq _ _ _ Hid). simpl.
  rewrite (find_first_app_fresh (next_oid db));
    [| by apply wf_db_fresh | done].
  split; [by destruct (write_ack db)|].
  rewrite delete_first_app_fresh; [done | by apply wf_db_fresh | done].
Qed.

Lemma create_then_delete_restores_witness :
  fst (deleteProduct id3 (snd (createProduct (Some upload_data)
                                 (many_records_db 3)))) = Ok tt /\
  documents (snd (deleteProduct id3 (snd (createProduct (Some upload_data)
                                            (many_records_db 3)))))
    = documents (many_records_db 3).
Proof.
  apply (create_then_delete_restores (many_records_db 3) upload_data id3);
    [|reflexivity|reflexivity].
  split; simpl.
  - repeat (apply NoDup_cons; split;
            [rewrite ?not_elem_of_cons; repeat split; try lia;
             apply not_elem_of_nil|]).
    apply NoDup_nil_2.
  - repeat (apply Forall_cons; split; [simpl; lia|]). apply Forall_nil_2.
Defined.

(** X4: the last status write wins. A status write made when the clock
    reads [t] leaves the documents the same whether or not an earlier
    status write to the same id came before it: status and [updatedAt]
    are those of the last write, the rest was never touched. *)
Theorem status_write_last_wins db id s1 s2 t :
  falsy (Some s1) = false ->
  falsy (Some s2) = false ->
  documents (snd (updateProcessingStatus id (Some s2)
                    (tick t (snd (updateProcessingStatus id (Some s1) db)))))
    = documents (snd (updateProcessingStatus id (Some s2) (tick t db))).
Proof.
  intros H1 H2. destruct (castObjectId id) as [oid|] eqn:Hid.
  - rewrite !(updateProcessingStatus_truthy _ _ _ oid) by done. simpl.
    rewrite update_first_twice by done.
    by rewrite (update_first_ext oid _ (status_write t s2)).
  - by rewrite !updateProcessingStatus_malformed.
Qed.

Lemma status_write_last_wins_witness :
  documents (snd (updateProcessingStatus id1 (Some "completed")
                    (tick 3000
                       (snd (updateProcessingStatus id1 (Some "failed")
                               (many_records_db 3))))))
    = documents (snd (updateProcessingStatus id1 (Some "completed")
                        (tick 3000 (many_records_db 3)))).
Proof.
  apply (status_write_last_wins (many_records_db 3) id1 "failed" "completed"
           3000); reflexivity.
Defined.

End ServiceWrites.

(** ** [updateProductById] *)

Section UpdateById.

Import Model ProductService.


Lemma apply_set_status s p :
  apply_set (status_update s) None p = set_processingStatus s p.
Proof. reflexivity. Qed.






(** X7: an update that names [processingStatus] only, with a non-empty
    value, is the status write: [updateProductById] and
    [updateProcessingStatus] then return the same and leave the same
    store. *)
Theorem update_of_status_is_status_write db id s :
  falsy (Some s) = false ->
  updateProductById id (Some (status_update s)) db
    = updateProcessingStatus id (Some s) db.
Proof.
  intros Hs. destruct (castObjectId id) as [oid|] eqn:Hid.
  - rewrite (updateProductById_eq _ _ _ (status_update s) None Hid eq_refl).
    rewrite (updateProcessingStatus_truthy _ _ _ _ Hs Hid).
    by rewrite (update_first_ext oid _ (status_write (now db) s)).
  - rewrite (updateProductById_malformed _ _ _ Hid).
    by rewrite (updateProcessingStatus_malformed _ _ _ Hs Hid).
Qed.

Lemma update_of_status_is_status_write_witness :
  updateProductById id1 (Some (status_update "failed")) (many_records_db 3)
    = updateProcessingStatus id1 (Some "failed") (many_records_db 3).
Proof.
  apply (update_of_status_is_status_write (many_records_db 3) id1 "failed").
  reflexivity.
Defined.

(** X8: the status enum is checked at creation only. A non-empty status
    outside the schema's enum makes [createProduct] throw and store
    nothing, while both [updateProcessingStatus] and [updateProductById]
    accept it for a stored record and store it. *)
Theorem enum_checked_at_creation_only db id s p d :
  enum_ok s = false ->
  falsy (Some s) = false ->
  write_ack db = true ->
  fst (getProductById id db) = Ok p ->
  in_processingStatus d = Some s ->
  (exists e, fst (createProduct (Some d) db) = Throw e) /\
  documents (snd (createProduct (Some d) db)) = documents db /\
  fst (updateProcessingStatus id (Some s) db) = Ok tt /\
  processingStatus <$>
    find_first (_id p)
      (documents (snd (updateProcessingStatus id (Some s) db)))
    = Some s /\
  fst (updateProductById id (Some (status_update s)) db) = Ok tt /\
  processingStatus <$>
    find_first (_id p)
      (documents (snd (updateProductById id (Some (status_update s)) db)))
    = Some s.
Proof.
  intros He Hs Hack Hp Hd.
  rewrite getProductById_eq in Hp. simpl in Hp.
  destruct (castObjectId id) as [oid|] eqn:Hid; [|done].
  destruct (find_first oid (documents db)) as [q|] eqn:Hq; [|done].
  injection Hp as ->.
  assert (_id p = oid) as -> by (by apply find_first_Some in Hq as [_ ?]).
  assert (passes (validate d) = false) as Hv.
  { destruct (passes (validate d)) eqn:Hv; [|done].
    apply passes_iff in Hv as (_ & _ & _ & _ & Hen).
    rewrite Hd in Hen. simpl in Hen. congruence. }
  rewrite (createProduct_invalid _ _ Hv).
  rewrite (updateProductById_eq _ _ _ (status_update s) None Hid eq_refl).
  rewrite (update_first_ext oid _ (status_write (now db) s)) by done.
  rewrite (updateProcessingStatus_truthy _ _ _ _ Hs Hid). simpl.
  rewrite Hq, Hack. rewrite update_first_find by done. rewrite Hq.
  split; [by eexists | done].
Qed.

Lemma enum_checked_at_creation_only_witness :
  (exists e, fst (createProduct (Some (upload_data_with_status "done"))
                    (many_records_db 3)) = Throw e) /\
  fst (updateProcessingStatus id1 (Some "done") (many_records_db 3)) = Ok tt /\
  processingStatus <$>
    find_first 1%N
      (documents (snd (updateProcessingStatus id1 (Some "done")
                         (many_records_db 3))))
    = Some "done".
Proof.
  destruct (enum_checked_at_creation_only (many_records_db 3) id1 "done"
              (new_Product 1%N 1000 upload_data)
              (upload_data_with_status "done")
              eq_refl eq_refl eq_refl eq_refl eq_refl)
    as (H1 & _ & H3 & H4 & _).
  split; [exact H1 | split; [exact H3 | exact H4]].
Defined.

End UpdateById.

(** ** The error handler *)

Section ErrorHandler.

Lemma leading_four c :
  400 <= c <= 499 -> startsWith (num_to_string c) "4" = true.
Proof.
  intros Hc.
  assert (forallb (fun n => startsWith (num_to_string n) "4") (seq 400 100)
          = true) as Hall by (vm_compute; reflexivity).
  rewrite List.forallb_forall in Hall. apply Hall.
  apply List.in_seq. lia.
Qed.

Lemma leading_five c :
  500 <= c <= 599 -> startsWith (num_to_string c) "4" = false.
Proof.
  intros Hc.
  assert (forallb (fun n => negb (startsWith (num_to_string n) "4"))
                  (seq 500 100) = true) as Hall by (vm_compute; reflexivity).
  rewrite List.forallb_forall in Hall.
  apply negb_true_iff, Hall, List.in_seq. lia.
Qed.

(** X9: how the error handler reports a [CustomError]. One with a
    non-empty message and a 4xx status code is answered with that code,
    status ["fail"] and its own message; one with a 5xx code with that
    code, status ["error"] and its own message; in development the body
    also carries the error's stack. *)
Theorem globalErrorHandler_classifies env m c :
  m <> "" ->
  (400 <= c <= 499 ->
     globalErrorHandler env (CustomError m c)
       = mkResponse c "fail" NoData m
           (if development env then Some (StackOf (CustomError m c))
            else None)) /\
  (500 <= c <= 599 ->
     globalErrorHandler env (CustomError m c)
       = mkResponse c "error" NoData m
           (if development env then Some (StackOf (CustomError m c))
            else None)).
Proof.
  intros Hm. unfold globalErrorHandler. simpl.
  rewrite decide_False by done.
  split; intros Hc; (destruct c as [|c']; [lia|]); simpl num_or.
  - by rewrite leading_four.
  - by rewrite leading_five.
Qed.

Lemma globalErrorHandler_classifies_witness :
  globalErrorHandler None (CustomError "Product not found" 404)
    = mkResponse 404 "fail" NoData "Product not found" None /\
  globalErrorHandler (Some "development")
      (CustomError "Update failed, try again later" 503)
    = mkResponse 503 "error" NoData "Update failed, try again later"
        (Some (StackOf (CustomError "Update failed, try again later" 503))).
Proof.
  split.
  - apply (globalErrorHandler_classifies None "Product not found" 404);
      [discriminate | lia].
  - apply (globalErrorHandler_classifies (Some "development")
             "Update failed, try again later" 503);
      [discriminate | lia].
Defined.

(** X10: what the error handler never does. Whatever the error and the
    environment, the response has a status code other than 0, a message
    that is not empty, and no data, and it carries a stack exactly when
    [NODE_ENV] is ["development"]. An error that is not a [CustomError]
    is answered 500, status ["error"], with the generic message; so
    outside development nothing of such an error reaches the client,
    while in development its stack does. *)
Theorem globalErrorHandler_never_blank env e :
  http_status (globalErrorHandler env e) <> 0 /\
  body_message (globalErrorHandler env e) <> "" /\
  body_data (globalErrorHandler env e) = NoData /\
  (body_stack (globalErrorHandler env e) = Some (StackOf e) <->
   env = Some "development") /\
  (body_stack (globalErrorHandler env e) = None <->
   env <> Some "development") /\
  (err_statusCode e = None ->
   globalErrorHandler env e
     = mkResponse 500 "error" NoData "Something went wrong, try again later"
         (if development env then Some (StackOf e) else None)).
Proof.
  assert (forall A (x y : A),
            ((if development env then x else y) = x /\
             env = Some "development") \/
            ((if development env then x else y) = y /\
             env <> Some "development")) as Hdev.
  { intros A x y. unfold development.
    destruct (decide (env = Some "development")); auto. }
  split; [|split; [|split; [done|split; [|split]]]].
  - destruct e as [m c| | | |]; unfold globalErrorHandler; simpl; try done.
    destruct c; simpl; lia.
  - destruct e as [m c| | | |]; unfold globalErrorHandler; simpl; try done.
    destruct (decide (m = "")); done.
  - unfold globalErrorHandler. simpl.
    destruct (Hdev _ (Some (StackOf e)) None) as [[-> ?]|[-> ?]];
      split; done.
  - unfold globalErrorHandler. simpl.
    destruct (Hdev _ (Some (StackOf e)) None) as [[-> ?]|[-> ?]];
      split; done.
  - destruct e as [m c| | | |]; unfold globalErrorHandler; simpl; done.
Qed.

Lemma globalErrorHandler_never_blank_witness :
  globalErrorHandler (Some "production")
      (CastError "ObjectId" "_id" "abc")
    = mkResponse 500 "error" NoData "Something went wrong, try again later"
        None.
Proof.
  apply (globalErrorHandler_never_blank (Some "production")
           (CastError "ObjectId" "_id" "abc")).
  reflexivity.
Defined.

End ErrorHandler.

(** ** Pages of products: [getProducts] *)

Section Pages.

Import Model ProductService.








End Pages.

(** ** The routes *)

Section Routes.

Import Model ProductService Router.

Lemma try_catch_bind {A} (m : M A) (k : A -> Response) db :
  try_catch (bind m (fun a => ret (k a))) db =
  (match fst (m db) with
   | Ok a => Sent (k a)
   | Throw e => Next e
   end, snd (m db)).
Proof. unfold try_catch, bind, ret. by destruct (m db) as [[a|e] db']. Qed.

Lemma handle_GET_id id db :
  handle (GET_id id) db =
  (match fst (getProductById id db) with
   | Ok p => Sent (mkResponse 200 "success" (DataProduct p)
                              "Product fetched successfully" None)
   | Throw e => Next e
   end, db).
Proof.
  unfold handle, ProductController.getProduct. simpl.
  rewrite (try_catch_bind (getProductById id)
             (fun p => mkResponse 200 "success" (DataProduct p)
                                  "Product fetched successfully" None)).
  by rewrite getProductById_eq.
Qed.

Lemma getProducts_snd userId offset db :
  snd (getProducts userId offset db) = db.
Proof.
  destruct (falsy userId) eqn:Hu.
  - by rewrite (getProducts_falsy _ _ _ Hu).
  - destruct (falsy_Some_false _ Hu) as [t ->].
    destruct (castObjectId t) as [uid|] eqn:Ht.
    + by rewrite (getProducts_eq _ _ _ _ Ht).
    + by rewrite (getProducts_malformed _ _ _ Hu Ht).
Qed.

Lemma handle_GET_root userId offset db :
  handle (GET_root userId offset) db =
  (match fst (getProducts userId offset db) with
   | Ok pg => Sent (mkResponse 200 "success" (DataPage pg) "" None)
   | Throw e => Next e
   end, db).
Proof.
  unfold handle, ProductController.getProducts. simpl.
  rewrite (try_catch_bind (getProducts userId offset)
             (fun pg => mkResponse 200 "success" (DataPage pg) "" None)).
  by rewrite getProducts_snd.
Qed.

Lemma handle_PUT_id id u db :
  handle (PUT_id id u) db =
  (match fst (updateProductById id u db) with
   | Ok _ => Sent (mkResponse 200 "success" NoData
                              "Product updated successfully" None)
   | Throw e => Next e
   end, snd (updateProductById id u db)).
Proof.
  unfold handle, ProductController.updateProduct. simpl.
  apply (try_catch_bind (updateProductById id u)
           (fun _ => mkResponse 200 "success" NoData
                                "Product updated successfully" None)).
Qed.

Lemma handle_POST_root d db :
  handle (POST_root d) db =
  (match fst (createProduct d db) with
   | Ok p => Sent (mkResponse 201 "success" (DataProduct p)
                              "Product created successfully" None)
   | Throw e => Next e
   end, snd (createProduct d db)).
Proof.
  unfold handle, ProductController.createProduct. simpl.
  apply (try_catch_bind (createProduct d)
           (fun p => mkResponse 201 "success" (DataProduct p)
                                "Product created successfully" None)).
Qed.

Lemma handle_PATCH_id_status id s db :
  handle (PATCH_id_status id s) db =
  (match fst (updateProcessingStatus id s db) with
   | Ok _ => Sent (mkResponse 200 "success" NoData
                              "Processing status updated" None)
   | Throw e => Next e
   end, snd (updateProcessingStatus id s db)).
Proof.
  unfold handle, ProductController.updateStatus. simpl.
  apply (try_catch_bind (updateProcessingStatus id s)
           (fun _ => mkResponse 200 "success" NoData
                                "Processing status updated" None)).
Qed.

Lemma handle_DELETE_id id db :
  handle (DELETE_id id) db
    = (Next (ReferenceError "productService is not defined"), db).
Proof. reflexivity. Qed.

(** X14: the create route. Data that pass validation are answered 201
    with the new record, which is stored last; data that fail
    validation, a [user] that is no ObjectId included, are answered 500,
    status ["error"], with the generic message, and nothing is stored; a
    request without data is answered 400, status ["fail"], and the
    store is untouched. *)
Theorem create_route_answers env db d :
  (passes (validate d) = true ->
     respond env (POST_root (Some d)) db
       = (mkResponse 201 "success"
            (DataProduct (new_Product (next_oid db) (now db) d))
            "Product created successfully" None,
          mkDb (documents db ++ [new_Product (next_oid db) (now db) d])
               (N.succ (next_oid db)) (write_ack db) (now db))) /\
  (passes (validate d) = false ->
     fst (respond env (POST_root (Some d)) db)
       = mkResponse 500 "error" NoData "Something went wrong, try again later"
           (if development env
            then Some (StackOf (ValidationError (validate d)))
            else None) /\
     documents (snd (respond env (POST_root (Some d)) db)) = documents db) /\
  respond env (POST_root None) db
    = (mkResponse 400 "fail" NoData "Product data is required"
         (if development env
          then Some (StackOf (CustomError "Product data is required" 400))
          else None), db).
Proof.
  unfold respond. rewrite !handle_POST_root. split; [|split; [|done]].
  - intros Hv. by rewrite (createProduct_valid _ _ Hv).
  - intros Hv. by rewrite (createProduct_invalid _ _ Hv).
Qed.

Lemma create_route_answers_witness :
  respond None (POST_root (Some upload_data)) empty_db
    = (mkResponse 201 "success"
         (DataProduct (new_Product 0%N 1000 upload_data))
         "Product created successfully" None,
       mkDb [new_Product 0%N 1000 upload_data] 1%N true 1000) /\
  fst (respond None (POST_root (Some (upload_data_of_user "64b7f0c2a1")))
         empty_db)
    = mkResponse 500 "error" NoData "Something went wrong, try again later"
        None.
Proof.
  split.
  - apply (create_route_answers None empty_db upload_data). reflexivity.
  - apply (create_route_answers None empty_db
             (upload_data_of_user "64b7f0c2a1")).
    reflexivity.
Defined.

(** X15: the status codes of the routes. Whatever the request and the
    store, the fetch route answers 200, 404 or 500, the list route 200
    or 500, the update and status routes 200, 400, 404 or 500, the
    create route 201, 400 or 500, and the delete route 500; the fetch
    route answers 500 exactly when the id is no ObjectId. *)
Theorem route_status_codes env c db :
  http_status (fst (respond env c db)) ∈
    match c with
    | GET_id _ => [200; 404; 500]
    | GET_root _ _ => [200; 500]
    | PUT_id _ _ => [200; 400; 404; 500]
    | POST_root _ => [201; 400; 500]
    | PATCH_id_status _ _ => [200; 400; 404; 500]
    | DELETE_id _ => [500]
    end /\
  (forall id, c = GET_id id ->
     (http_status (fst (respond env c db)) = 500 <-> castObjectId id = None)).
Proof.
  unfold respond. split.
  - destruct c as [id|userId offset|id u|d|id s|id].
    + rewrite handle_GET_id, getProductById_eq. simpl.
      destruct (castObjectId id) as [oid|];
        [destruct (find_first oid (documents db))|]; simpl;
        rewrite !elem_of_cons; auto.
    + rewrite handle_GET_root. simpl. destruct (falsy userId) eqn:Hu.
      * rewrite (getProducts_falsy _ _ _ Hu). simpl.
        rewrite !elem_of_cons; auto.
      * destruct (falsy_Some_false _ Hu) as [t ->].
        destruct (castObjectId t) as [uid|] eqn:Ht.
        -- rewrite (getProducts_eq _ _ _ _ Ht). simpl.
           rewrite !elem_of_cons; auto.
        -- rewrite (getProducts_malformed _ _ _ Hu Ht). simpl.
           rewrite !elem_of_cons; auto.
    + rewrite handle_PUT_id. destruct u as [u|].
      * destruct (castObjectId id) as [oid|] eqn:Hid.
        -- destruct (cast_up_user u) as [usr|e] eqn:Hu.
           ++ rewrite (updateProductById_eq _ _ _ _ _ Hid Hu). simpl.
              destruct (write_ack db);
                [destruct (find_first oid (documents db))|];
                simpl; rewrite !elem_of_cons; auto.
           ++ rewrite (updateProductById_bad_user _ _ _ _ _ Hid Hu). simpl.
              unfold cast_up_user in Hu.
              destruct (up_user u) as [t|]; [|done].
              destruct (castObjectId t); [done|]. injection Hu as <-.
              simpl. rewrite !elem_of_cons; auto.
        -- rewrite (updateProductById_malformed _ _ _ Hid). simpl.
           rewrite !elem_of_cons; auto.
      * simpl. rewrite !elem_of_cons; auto.
    + rewrite handle_POST_root. destruct d as [d|].
      * destruct (passes (validate d)) eqn:Hv.
        -- rewrite (createProduct_valid _ _ Hv). simpl.
           rewrite !elem_of_cons; auto.
        -- rewrite (createProduct_invalid _ _ Hv). simpl.
           rewrite !elem_of_cons; auto.
      * simpl. rewrite !elem_of_cons; auto.
    + rewrite handle_PATCH_id_status. destruct (falsy s) eqn:Hs.
      * rewrite (updateProcessingStatus_falsy _ _ _ Hs). simpl.
        rewrite !elem_of_cons; auto.
      * destruct (falsy_Some_false _ Hs) as [t ->].
        destruct (castObjectId id) as [oid|] eqn:Hid.
        -- rewrite (updateProcessingStatus_truthy _ _ _ _ Hs Hid). simpl.
           destruct (write_ack db);
             [destruct (find_first oid (documents db))|];
             simpl; rewrite !elem_of_cons; auto.
        -- rewrite (updateProcessingStatus_malformed _ _ _ Hs Hid). simpl.
           rewrite !elem_of_cons; auto.
    + rewrite handle_DELETE_id. simpl. rewrite !elem_of_cons; auto.
  - intros id ->. rewrite handle_GET_id, getProductById_eq. simpl.
    destruct (castObjectId id) as [oid|];
      [destruct (find_first oid (documents db))|]; simpl; split; done.
Qed.

Lemma route_status_codes_witness :
  http_status (fst (respond None (GET_id "abc") (many_records_db 3))) = 500.
Proof.
  destruct (route_status_codes None (GET_id "abc") (many_records_db 3))
    as [_ H].
  apply (H "abc" eq_refl). reflexivity.
Defined.

End Routes.

(** ** Sessions of calls *)

Section Sessions.

Import Model ProductService Router.

(** One call either keeps the ids of the collection or appends the id
    the store had next. *)
Lemma handle_ids c db :
  (map _id (documents (snd (handle c db))) = map _id (documents db) /\
   (next_oid db <= next_oid (snd (handle c db)))%N) \/
  (map _id (documents (snd (handle c db)))
     = (map _id (documents db) ++ [next_oid db])%list /\
   next_oid (snd (handle c db)) = N.succ (next_oid db)).
Proof.
  destruct c as [id|userId offset|id u|d|id s|id].
  - rewrite handle_GET_id. by left.
  - rewrite handle_GET_root. by left.
  - rewrite handle_PUT_id. left. destruct u as [u|]; [|done].
    destruct (castObjectId id) as [oid|] eqn:Hid.
    + destruct (cast_up_user u) as [usr|e] eqn:Hu.
      * rewrite (updateProductById_eq _ _ _ _ _ Hid Hu). simpl.
        by rewrite update_first_map.
      * by rewrite (updateProductById_bad_user _ _ _ _ _ Hid Hu).
    + by rewrite (updateProductById_malformed _ _ _ Hid).
  - rewrite handle_POST_root. destruct d as [d|]; [|by left].
    destruct (passes (validate d)) eqn:Hv.
    + right. rewrite (createProduct_valid _ _ Hv). simpl.
      by rewrite map_app.
    + left. rewrite (createProduct_invalid _ _ Hv). simpl.
      split; [done | lia].
  - rewrite handle_PATCH_id_status. left. simpl. split.
    + by apply updateProcessingStatus_map.
    + destruct (falsy s) eqn:Hs.
      * by rewrite (updateProcessingStatus_falsy _ _ _ Hs).
      * destruct (falsy_Some_false _ Hs) as [t ->].
        destruct (castObjectId id) as [oid|] eqn:Hid.
        -- by rewrite (updateProcessingStatus_truthy _ _ _ _ Hs Hid).
        -- by rewrite (updateProcessingStatus_malformed _ _ _ Hs Hid).
  - rewrite handle_DELETE_id. by left.
Qed.

Lemma wf_db_ids db :
  wf_db db <->
  NoDup (map _id (documents db)) /\
  Forall (fun i => (i < next_oid db)%N) (map _id (documents db)).
Proof. unfold wf_db. by rewrite Forall_fmap. Qed.

Lemma handle_wf c db : wf_db db -> wf_db (snd (handle c db)).
Proof.
  rewrite !wf_db_ids. intros [Hnd Hlt].
  destruct (handle_ids c db) as [[-> Hle]|[-> ->]].
  - split; [done|]. eapply Forall_impl; [exact Hlt|]. simpl. intros; lia.
  - split.
    + apply NoDup_app. split; [done|]. split; [|apply NoDup_singleton].
      intros i Hi Hi'. apply list_elem_of_singleton in Hi'. subst i.
      rewrite Forall_forall in Hlt. specialize (Hlt _ Hi). simpl in Hlt. lia.
    + apply Forall_app. split.
      * eapply Forall_impl; [exact Hlt|]. simpl. intros; lia.
      * apply Forall_singleton. lia.
Qed.

Lemma serve_cons env c cs db :
  snd (serve env (c :: cs) db) = snd (serve env cs (snd (handle c db))).
Proof.
  simpl. unfold respond. by destruct (serve env cs (snd (handle c db))).
Qed.

(** X16: through the routes the collection only grows. After any
    sequence of calls to the six routes, the ids of the documents stored
    before are still there, in the same order, as a prefix of the ids
    stored afterwards: no call removes or reorders a document, the
    delete route included. Ids stay unique and below the next id if they
    were so before. *)
Theorem routes_only_append env cs db :
  map _id (documents db)
    `prefix_of` map _id (documents (snd (serve env cs db))) /\
  length (documents db) <= length (documents (snd (serve env cs db))) /\
  (wf_db db -> wf_db (snd (serve env cs db))).
Proof.
  revert db. induction cs as [|c cs IH]; intros db.
  - simpl. done.
  - rewrite serve_cons.
    destruct (IH (snd (handle c db))) as (Hpre & Hlen & Hwf).
    assert (map _id (documents db)
              `prefix_of` map _id (documents (snd (handle c db)))) as Hstep.
    { destruct (handle_ids c db) as [[-> _]|[-> _]];
        [done | by apply prefix_app_r]. }
    split; [by etrans|]. split.
    + apply prefix_length in Hstep. rewrite !length_map in Hstep. lia.
    + intros Hdb. by apply Hwf, handle_wf.
Qed.

Lemma routes_only_append_witness :
  wf_db (snd (serve None [POST_root (Some upload_data);
                          PATCH_id_status id0 (Some "failed");
                          DELETE_id id0] empty_db)).
Proof.
  apply (routes_only_append None [POST_root (Some upload_data);
                                  PATCH_id_status id0 (Some "failed");
                                  DELETE_id id0] empty_db).
  split; simpl; [apply NoDup_nil_2 | apply Forall_nil_2].
Defined.

End Sessions.
